(** * regular: a recurring-task engine confined to daily time windows

    Shallow embedding of [regular/regular.go] (package [regular]) and the
    properties of its window containment check, its configuration
    container, its polling loop and its run loop. *)

From Stdlib Require Import ZArith Lia Ascii String.
From stdpp Require Import base numbers list strings gmap pretty.

(** ** The fragment of Go's [time] package used by the engine *)

Module GoTime.
Local Open Scope Z_scope.

(** A [time.Time] built by [time.Date(0, 0, 0, hour, min, 0, 0, time.Local)]
    is determined by its distance, in seconds, from midnight of the
    reference day: [time.Date] normalises minutes into hours and hours into
    days, and the zone offset is the same for all instants involved. *)
Definition Time := Z.

Definition Date (hour min : Z) : Time := hour * 3600 + min * 60.

(** [time.Duration] is a signed 64-bit count of nanoseconds. *)
Definition Second : Z := 1000000000.
Definition Millisecond : Z := 1000000.
Definition minDuration : Z := -9223372036854775808.
Definition maxDuration : Z := 9223372036854775807.

(** [t.Sub(u)]: the difference in nanoseconds, saturated at the ends of the
    [Duration] range. *)
Definition Sub (t u : Time) : Z :=
  let d := (t - u) * Second in
  if d <? minDuration then minDuration
  else if maxDuration <? d then maxDuration
  else d.

(** Two's-complement wrap-around of a 64-bit signed integer. *)
Definition wrap64 (x : Z) : Z := (x + 2 ^ 63) mod 2 ^ 64 - 2 ^ 63.

(** [time.Duration(n) * unit] *)
Definition Duration_of (n unit : Z) : Z := wrap64 (n * unit).

End GoTime.

(** ** The containment check *)

Section Containment.
Import GoTime.
Local Open Scope Z_scope.

(** [CheckTime]: the pair is [(start, end)], both [false] on entry as Go's
    named results are. *)
Definition CheckTime
    (startHour startMinute endHour endMinute currentHour currentMinute : Z)
    : bool * bool :=
  let startTime := Date startHour startMinute in
  let endTime := Date endHour endMinute in
  let currentTime := Date currentHour currentMinute in
  let since := Sub startTime endTime in
  if since =? 0 then (true, false)
  else if since <? 0 then
    let start := if Sub currentTime startTime >=? 0 then true else false in
    let end_ := if Sub currentTime endTime >=? 0 then true else false in
    (start, end_)
  else
    let end_ := if Sub currentTime endTime >=? 0 then true else false in
    if (Sub currentTime startTime >=? 0) || negb end_
    then (true, false)
    else (false, end_).

(** What the specification says of a window that wraps past midnight. *)
Definition wrapping_claim (sh sm eh em ch cm : Z) : Prop :=
  Date eh em < Date sh sm ->
  let r := CheckTime sh sm eh em ch cm in
  (r.2 = true <-> Date eh em <= Date ch cm) /\
  (r.1 = true <-> Date sh sm <= Date ch cm \/ Date ch cm < Date eh em) /\
  ~ (r.1 = true /\ r.2 = true).

(** What the specification says of a window that does not wrap, the
    degenerate window included. *)
Definition nonwrapping_claim (sh sm eh em ch cm : Z) : Prop :=
  Date sh sm <= Date eh em ->
  let r := CheckTime sh sm eh em ch cm in
  r.1 = (Date sh sm <=? Date ch cm) /\
  r.2 = (Date eh em <=? Date ch cm) /\
  (r.1 = true /\ r.2 = true -> Date eh em <= Date ch cm).

End Containment.

(** ** Data model *)

(** Go's [error] values are told apart by their message. *)
Definition error := string.

(** Modelled from the spec: the declaration of [Period] lies outside
    [regular.go]. The source reads its four parsed clock components
    ([v.startHour], [v.startMinute], [v.endHour], [v.endMinute]); the raw
    start and end strings are the external representation the spec describes. *)
Record Period := mkPeriod {
  rawStart : string;
  rawEnd : string;
  startHour : Z;
  startMinute : Z;
  endHour : Z;
  endMinute : Z
}.

(** Modelled from the spec: the declaration of [Config] lies outside
    [regular.go]. The source uses the fields [Name], [Periods],
    [SuccessInterval] and [FailInterval]; the two intervals are Go [int]s
    counting milliseconds. *)
Record Config := mkConfig {
  Name : string;
  Periods : list Period;
  SuccessInterval : Z;
  FailInterval : Z
}.

Definition with_Name (n : string) (c : Config) : Config :=
  mkConfig n (Periods c) (SuccessInterval c) (FailInterval c).

Definition with_Periods (ps : list Period) (c : Config) : Config :=
  mkConfig (Name c) ps (SuccessInterval c) (FailInterval c).

(** A [*Config] is a location of the store of Config objects; [None] is the
    nil pointer. Every non-nil pointer of a Go program points to an object: a
    location with no object in the store plays the part of nil when it is
    dereferenced. *)
Definition loc := positive.

Definition deref (h : gmap loc Config) (p : option loc) : option Config :=
  p ≫= (h !!.).

(** The state of the channel [e.stopCh] refers to. *)
Inductive chan := ChanNil | ChanOpen | ChanClosed.

(** A [context.Context]: the caller's context or a child made by
    [context.WithCancel]; a child carries the identity of its cancel
    function. *)
Inductive context :=
  | Background
  | WithCancel (id : nat) (parent : context).

(** A context is done once its own cancel function or one of an ancestor has
    been called. *)
Fixpoint Done (cancelled : gset nat) (c : context) : bool :=
  match c with
  | Background => false
  | WithCancel id parent =>
      bool_decide (id ∈ cancelled) || Done cancelled parent
  end.

(** [Engine]: the mutex [m] serialises [SetConfig] and [GetConfig], each of
    which is one atomic step here; the logging sink [log] is external. *)
Record Engine := mkEngine {
  cfg : option loc;
  cancel : option nat;
  stopCh : chan
}.

Definition with_cfg (p : option loc) (e : Engine) : Engine :=
  mkEngine p (cancel e) (stopCh e).

Definition with_stopCh (ch : chan) (e : Engine) : Engine :=
  mkEngine (cfg e) (cancel e) ch.

(** A call either completes or panics. *)
Inductive result (A : Type) :=
  | Ok (a : A)
  | Panic (msg : string).
Arguments Ok {A} a.
Arguments Panic {A} msg.

Definition no_panic {A} (r : result A) : Prop :=
  match r with Ok _ => True | Panic _ => False end.

Definition nil_dereference : string :=
  "invalid memory address or nil pointer dereference".

(** What a loop of the engine has done when it is observed: it has returned
    an error value ([None] is Go's nil), it has panicked, or it is still
    running (the fuel of the model is spent). *)
Inductive outcome :=
  | Returned (err : option error)
  | Panicked (msg : string)
  | Running.

(** What the engine does to the outside. *)
Inductive event :=
  | Invoke (i : nat)                      (* the i-th call of task.Run *)
  | Sleep (d : Z)                         (* time.Sleep(d), d in nanoseconds *)
  | Launch (c : context) (v : Period)     (* go func() { e.run(c, task) } *)
  | Cancel (id : nat).                    (* a call of a cancel function *)

(** ** The configuration container *)

Section Container.
(** [Period.Parse] is declared outside [regular.go]. It has a pointer
    receiver: a call yields an error value and leaves the window in some
    state. The polling loop reads the parsed components from the windows of
    the installed Config, so the results of parsing live in the windows of the
    Config handed to [SetConfig]. *)
Variable Parse : Period -> option error * Period.

(** [fmt.Errorf("analysis time period %d failed: %v", k, err)] *)
Definition analysis_failed (k : nat) (err : error) : error :=
  "analysis time period " +:+ pretty k +:+ " failed: " +:+ err.

(** The loop [for k, v := range cfg.Periods] of [SetConfig], from index [k]
    on: the first failure and the windows as the loop leaves them. *)
Fixpoint parse_periods (k : nat) (ps : list Period)
    : option (nat * error) * list Period :=
  match ps with
  | [] => (None, [])
  | v :: rest =>
      match Parse v with
      | (Some err, v') => (Some (k, err), v' :: rest)
      | (None, v') =>
          let '(r, rest') := parse_periods (S k) rest in (r, v' :: rest')
      end
  end.

Definition SetConfig (e : Engine) (h : gmap loc Config) (p : option loc)
    : result (option error) * Engine * gmap loc Config :=
  match p with
  | None => (Ok None, e, h)
  | Some l =>
      match h !! l with
      | None => (Panic nil_dereference, e, h)
      | Some c =>
          match parse_periods 0 (Periods c) with
          | (Some (k, err), ps) =>
              (Ok (Some (analysis_failed k err)), e,
               <[l := with_Periods ps c]> h)
          | (None, ps) =>
              let c1 := with_Periods ps c in
              let c2 := if String.eqb (Name c1) EmptyString then with_Name "regular" c1
                        else c1 in
              (Ok None, with_cfg (Some l) e, <[l := c2]> h)
          end
      end
  end.

Definition GetConfig (e : Engine) : option loc := cfg e.

(** [NewWithLogger] (and [New], which passes a nil logger): the zero Engine
    with the Config installed; [None] for the nil [*Engine]. *)
Definition NewWithLogger (h : gmap loc Config) (p : option loc)
    : result (option Engine * option error) * gmap loc Config :=
  let e := mkEngine None None ChanNil in
  match SetConfig e h p with
  | (Ok (Some err), _, h') => (Ok (None, Some err), h')
  | (Ok None, e', h') => (Ok (Some e', None), h')
  | (Panic msg, _, h') => (Panic msg, h')
  end.

Definition New := NewWithLogger.

End Container.

(** ** Shutdown *)

(** Go's [close]: closing a nil channel panics, and so does closing a closed
    one. *)
Definition close (ch : chan) : result chan :=
  match ch with
  | ChanNil => Panic "close of nil channel"
  | ChanClosed => Panic "close of closed channel"
  | ChanOpen => Ok ChanClosed
  end.

Definition Shutdown (e : Engine) : result Engine :=
  match close (stopCh e) with
  | Ok ch => Ok (with_stopCh ch e)
  | Panic msg => Panic msg
  end.

(** What the specification says of [Shutdown]: neither a call on an engine
    with no Start in progress nor a second call in a row panics. *)
Definition Shutdown_claim (e : Engine) : Prop :=
  no_panic (Shutdown e) /\
  (forall e1, Shutdown e = Ok e1 -> no_panic (Shutdown e1)).

(** ** The run loop *)

(** What a run loop finds around it. The task and the other goroutines are
    not part of the engine: the i-th iteration of the loop learns from its
    surroundings whether its context is done ([Some err] with
    [err = ctx.Err()]), what the i-th call of [task.Run] returns ([None] is
    nil), and what the engine and the store of Config objects look like once
    that call has returned. Between two iterations other goroutines may have
    called [SetConfig] or written through a [*Config] they hold. *)
Record RunWorld := mkRunWorld {
  ctx_done : nat -> option error;
  task_run : nat -> option error;
  engine_at : nat -> Engine;
  heap_at : nat -> gmap loc Config
}.

Section RunLoop.
Import GoTime.
Local Open Scope Z_scope.
Variable w : RunWorld.

(** The [for] loop of [Engine.run] from its i-th iteration on; [cfg] is the
    local variable of that name. The calls of the logging sink and the
    [fmt.Println] of the failure path are not events of the model. *)
Fixpoint run_loop (fuel : nat) (i : nat) (cfg : option loc)
    : outcome * list event :=
  match fuel with
  | O => (Running, [])
  | S fuel' =>
      match ctx_done w i with
      | Some err => (Returned (Some err), [])
      | None =>
          match task_run w i with
          | Some err =>
              match deref (heap_at w i) cfg with
              | None => (Panicked nil_dereference, [Invoke i])
              | Some c =>
                  if FailInterval c <? 0 then (Returned (Some err), [Invoke i])
                  else
                    let '(o, tr) := run_loop fuel' (S i) cfg in
                    (o, Invoke i
                          :: Sleep (Duration_of (FailInterval c) Millisecond)
                          :: tr)
              end
          | None =>
              let cfg := GetConfig (engine_at w i) in
              match deref (heap_at w i) cfg with
              | None => (Panicked nil_dereference, [Invoke i])
              | Some c =>
                  if SuccessInterval c <? 0 then (Returned None, [Invoke i])
                  else
                    let '(o, tr) := run_loop fuel' (S i) cfg in
                    (o, Invoke i
                          :: Sleep (Duration_of (SuccessInterval c) Millisecond)
                          :: tr)
              end
          end
      end
  end.

(** [Engine.run], entered on the engine [e]. *)
Definition run (e : Engine) (fuel : nat) : outcome * list event :=
  run_loop fuel 0 (GetConfig e).

End RunLoop.

(** The calls of the task among the events. *)
Definition invocations (tr : list event) : list nat :=
  omap (fun ev => match ev with Invoke i => Some i | _ => None end) tr.

Definition launches (tr : list event) : list (context * Period) :=
  omap (fun ev => match ev with Launch c v => Some (c, v) | _ => None end) tr.

(** ** The polling loop *)

(** The variables of the polling loop of [Engine.Start]: the two locals
    [currentStartHour] and [currentStartMinute], the parameter [ctx] (which
    the loop reassigns), the field [e.cancel], the next fresh identity of a
    cancel function, the cancel functions called so far and the events. *)
Record Poll := mkPoll {
  currentStartHour : Z;
  currentStartMinute : Z;
  ctx : context;
  e_cancel : option nat;
  next_id : nat;
  cancelled : gset nat;
  trace : list event
}.

(** What the polling loop finds around it at its j-th tick: the wall clock
    ([time.Now()]'s hour and minute), the engine's Config pointer and the
    store of Config objects, and whether the shutdown channel is ready when
    the [select] is reached. *)
Record PollWorld := mkPollWorld {
  now_at : nat -> Z * Z;
  poll_cfg_at : nat -> option loc;
  poll_heap_at : nat -> gmap loc Config;
  stop_at : nat -> bool
}.

Section Polling.
Local Open Scope Z_scope.

(** [ctx, e.cancel = context.WithCancel(ctx)] followed by the [go]
    statement, with the two assignments before them. *)
Definition launch (v : Period) (st : Poll) : Poll :=
  let c := WithCancel (next_id st) (ctx st) in
  mkPoll (startHour v) (startMinute v) c (Some (next_id st))
         (S (next_id st)) (cancelled st) (trace st ++ [Launch c v]).

(** [e.cancel(); e.cancel = nil] *)
Definition stop_active (id : nat) (st : Poll) : Poll :=
  mkPoll (currentStartHour st) (currentStartMinute st) (ctx st) None
         (next_id st) ({[id]} ∪ cancelled st) (trace st ++ [Cancel id]).

(** The loop [for _, v := range e.GetConfig().Periods] of one tick. *)
Fixpoint scan (hour minute : Z) (ps : list Period) (st : Poll) : Poll :=
  match ps with
  | [] => st
  | v :: rest =>
      if (currentStartHour st >? -1)
         && (negb (currentStartHour st =? startHour v)
             || negb (currentStartMinute st =? startMinute v))
      then scan hour minute rest st
      else
        let '(start, end_) :=
          CheckTime (startHour v) (startMinute v) (endHour v) (endMinute v)
                    hour minute in
        if start && negb end_ && negb (currentStartHour st =? startHour v)
        then launch v st
        else
          match e_cancel st with
          | Some id =>
              if start && end_ then scan hour minute rest (stop_active id st)
              else scan hour minute rest st
          | None => scan hour minute rest st
          end
  end.

(** The [case <-e.stopCh] branch: [if e.cancel != nil { e.cancel() }]. *)
Definition on_stop (st : Poll) : Poll :=
  match e_cancel st with
  | Some id =>
      mkPoll (currentStartHour st) (currentStartMinute st) (ctx st)
             (e_cancel st) (next_id st) ({[id]} ∪ cancelled st)
             (trace st ++ [Cancel id])
  | None => st
  end.

Variable pw : PollWorld.

(** The polling loop from its j-th tick on. *)
Fixpoint poll (fuel : nat) (j : nat) (st : Poll) : outcome * Poll :=
  match fuel with
  | O => (Running, st)
  | S fuel' =>
      let '(hour, minute) := now_at pw j in
      match deref (poll_heap_at pw j) (poll_cfg_at pw j) with
      | None => (Panicked nil_dereference, st)
      | Some c =>
          let st' := scan hour minute (Periods c) st in
          if stop_at pw j then (Returned None, on_stop st')
          else poll fuel' (S j) st'
      end
  end.

End Polling.

(** ** Start *)

Section Start.
Import GoTime.
Local Open Scope Z_scope.

(** [e.stopCh = make(chan struct{})] *)
Definition make_stopCh (e : Engine) : Engine := with_stopCh ChanOpen e.

(** The j-th reading of [time.Now().Second()] by the alignment loop. *)
Variable second_at : nat -> Z.

(** The alignment loop of [Start] from its j-th reading on: [None] once the
    loop is left by its [break]. The log call of the loop reads
    [e.cfg.Name]. *)
Fixpoint align (e : Engine) (h : gmap loc Config) (fuel : nat) (j : nat)
    : option outcome * list event :=
  match fuel with
  | O => (Some Running, [])
  | S fuel' =>
      let second := second_at j in
      if second =? 0 then (None, [])
      else
        match deref h (cfg e) with
        | None => (Some (Panicked nil_dereference), [])
        | Some _ =>
            let sleepInterval := 60 - second in
            let '(o, tr) := align e h fuel' (S j) in
            (o, Sleep (Duration_of sleepInterval Second) :: tr)
        end
  end.

(** An identity no cancel function in sight bears yet. *)
Fixpoint max_id (c : context) : nat :=
  match c with
  | Background => O
  | WithCancel id parent => Nat.max id (max_id parent)
  end.

Definition fresh_id (e : Engine) (c0 : context) : nat :=
  S (Nat.max (default O (cancel e)) (max_id c0)).

(** [Engine.Start] on the engine [e] with the store [h] as they stand when
    Start is entered; [rw] is what the run loop of the branch without windows
    finds around it, [pw] what the polling loop finds. *)
Definition Start (e : Engine) (h : gmap loc Config) (c0 : context)
    (rw : RunWorld) (pw : PollWorld) (fuel : nat) : outcome * list event :=
  let e := make_stopCh e in
  match align e h fuel 0 with
  | (Some o, tr) => (o, tr)
  | (None, tr) =>
      match deref h (GetConfig e) with
      | None => (Panicked nil_dereference, tr)
      | Some c =>
          if (length (Periods c) =? 0)%nat then
            let '(o, tr') := run rw e fuel in (o, tr ++ tr')
          else
            let st := mkPoll (-1) (-1) c0 (cancel e) (fresh_id e c0) ∅ [] in
            let '(o, st') := poll pw fuel 0 st in
            (o, tr ++ trace st')
      end
  end.

End Start.

(** ** A parser of clock times *)

Section ClockTimes.
Local Open Scope Z_scope.

Definition digit (a : ascii) : option Z :=
  let n := nat_of_ascii a in
  if ((48 <=? n) && (n <=? 57))%nat then Some (Z.of_nat (n - 48)) else None.

Definition parse_clock (s : string) : option (Z * Z) :=
  match s with
  | String a (String b (String ":"%char (String c (String d EmptyString)))) =>
      h1 ← digit a; h2 ← digit b; m1 ← digit c; m2 ← digit d;
      let h := 10 * h1 + h2 in
      let m := 10 * m1 + m2 in
      if (h <? 24) && (m <? 60) then Some (h, m) else None
  | _ => None
  end.

(** Modelled from the spec: [Period.Parse] is declared outside [regular.go].
    The spec fixes that the raw strings are clock times such as HH:MM, that a
    window which fails to parse yields an error, and that a parsed window has
    its hours in 0..23 and its minutes in 0..59. This instance reads two
    digits, a colon and two digits; it serves the examples, the theorems hold
    for every [Parse]. *)
Definition ParseHHMM (v : Period) : option error * Period :=
  match parse_clock (rawStart v) with
  | None => (Some "invalid start time", v)
  | Some (sh, sm) =>
      match parse_clock (rawEnd v) with
      | None => (Some "invalid end time", v)
      | Some (eh, em) => (None, mkPeriod (rawStart v) (rawEnd v) sh sm eh em)
      end
  end.

(** A window as a caller writes it, before parsing. *)
Definition window (s e : string) : Period := mkPeriod s e 0 0 0 0.

End ClockTimes.

(** ** Stores, engines and surroundings of the examples *)

Section Examples.
Local Open Scope Z_scope.

(** The zero Engine, on which no Start has run. *)
Definition zero_engine : Engine := mkEngine None None ChanNil.

(** The installed Config, parsed when it was installed. *)
Definition nightly : Config :=
  mkConfig "nightly" [mkPeriod "22:00" "06:00" 22 0 6 0] 1000 5000.

(** A Config whose second window is no clock time. *)
Definition broken : Config :=
  mkConfig EmptyString
           [window "09:00" "17:00"; window "25:00" "26:00";
            window "18:00" "19:00"]
           0 0.

(** A Config as a caller writes it: no name, two raw windows. *)
Definition daytime : Config :=
  mkConfig EmptyString [window "09:00" "10:00"; window "11:00" "12:00"] 0 (-1).

Definition store1 : gmap loc Config :=
  <[3%positive := daytime]> (<[2%positive := broken]> {[1%positive := nightly]}).

Definition engine1 : Engine := mkEngine (Some 1%positive) None ChanNil.


(** A Config without windows that retries at once after a failure, and its
    replacement, which makes a failure fatal. *)
Definition retrying : Config := mkConfig "job" [] 0 0.

Definition fatal : Config := mkConfig "job" [] 0 (-1).

Definition store7 : gmap loc Config :=
  <[2%positive := fatal]> {[1%positive := retrying]}.

Definition engine7 : Engine := mkEngine (Some 1%positive) None ChanOpen.

(** Another goroutine calls [SetConfig(&fatal)] on [engine7] while the first
    call of the task is under way. *)
Definition replaced : result (option error) * Engine * gmap loc Config :=
  SetConfig ParseHHMM engine7 store7 (Some 2%positive).

(** A task that always fails, a context that is never cancelled, and the
    engine as the replacement leaves it. *)
Definition world7 : RunWorld :=
  mkRunWorld (fun _ => None) (fun _ => Some "task failed")
             (fun _ => replaced.1.2) (fun _ => replaced.2).

(** A Config without windows that stops after one success. *)
Definition oneshot : Config := mkConfig "job" [] (-1) 0.

Definition store9 : gmap loc Config := {[1%positive := oneshot]}.

Definition engine9 : Engine := mkEngine (Some 1%positive) None ChanNil.

(** A task that always succeeds under a context that is never cancelled;
    nobody touches the engine or the store. *)
Definition world9 : RunWorld :=
  mkRunWorld (fun _ => None) (fun _ => None)
             (fun _ => make_stopCh engine9) (fun _ => store9).

(** Start is entered at second 37 of a minute; the sleep ends at second 0. *)
Definition seconds9 (j : nat) : Z := match j with O => 37 | _ => 0 end.

(** The engine after [SetConfig(&daytime)]: the windows 09:00-10:00 and
    11:00-12:00 are installed. *)
Definition installed : result (option error) * Engine * gmap loc Config :=
  SetConfig ParseHHMM engine1 store1 (Some 3%positive).

Definition first_window : Period := mkPeriod "09:00" "10:00" 9 0 10 0.

Definition second_window : Period := mkPeriod "11:00" "12:00" 11 0 12 0.

(** The polling loop ticks at 09:00, at 10:00 and at 11:00, and then as
    [later] tells; the Config stays as installed and shutdown is never
    signalled. *)
Definition world1 (later : nat -> Z * Z) : PollWorld :=
  mkPollWorld
    (fun j => match j with
              | O => (9, 0)
              | 1%nat => (10, 0)
              | 2%nat => (11, 0)
              | _ => later j
              end)
    (fun _ => GetConfig installed.1.2)
    (fun _ => installed.2)
    (fun _ => false).

(** No task runs in [world1] outside the launched goroutines. *)
Definition idle : RunWorld :=
  mkRunWorld (fun _ => None) (fun _ => None)
             (fun _ => installed.1.2) (fun _ => installed.2).

(** The variables of the polling loop when [Start] reaches it on the
    installed engine with the caller's context [Background]. *)
Definition poll_entry : Poll := mkPoll (-1) (-1) Background None 1 ∅ [].

End Examples.

(** ** Notions and surroundings for the further properties *)

Section FurtherDefinitions.
Import GoTime.
Local Open Scope Z_scope.

(** The test [start && !end] the polling loop applies to a window. *)
Definition in_window (v : Period) (hour minute : Z) : bool :=
  let '(start, end_) :=
    CheckTime (startHour v) (startMinute v) (endHour v) (endMinute v)
              hour minute in
  start && negb end_.

(** The events of a streak of [n] failed calls from iteration [i] on, each
    followed by the sleep of [ms] milliseconds. *)
Definition failed_calls (ms : Z) (i n : nat) : list event :=
  flat_map (fun k => [Invoke k; Sleep (Duration_of ms Millisecond)]) (seq i n).

(** The sleeps of an alignment loop that reads the seconds [n] times from
    its j-th reading on without finding 0. *)
Definition alignment_sleeps (second_at : nat -> Z) (j n : nat) : list event :=
  map (fun k => Sleep (Duration_of (60 - second_at k) Second)) (seq j n).

(** The polling loop on [engine1], whose Config holds the window
    22:00-06:00: one tick per hour from midnight on, no shutdown. *)
Definition night_world : PollWorld :=
  mkPollWorld (fun j => (Z.of_nat j mod 24, 0)) (fun _ => Some 1%positive)
              (fun _ => store1) (fun _ => false).

(** The same surroundings with the shutdown signal found at the fourth
    tick. *)
Definition stopping_world : PollWorld :=
  mkPollWorld (fun j => (Z.of_nat j mod 24, 0)) (fun _ => Some 1%positive)
              (fun _ => store1) (fun j => Nat.eqb j 3).

(** A Config without windows that retries after 50 ms and stops after one
    success. *)
Definition patient : Config := mkConfig "job" [] (-1) 50.

Definition store_patient : gmap loc Config := {[1%positive := patient]}.

(** A task that fails twice and succeeds from then on. *)
Definition world_patient : RunWorld :=
  mkRunWorld (fun _ => None)
             (fun i => if (i <? 2)%nat then Some "task failed" else None)
             (fun _ => engine9) (fun _ => store_patient).

(** A task that succeeds once and fails from then on, on the engine as the
    replacement of [retrying] by [fatal] leaves it. *)
Definition world_swapped : RunWorld :=
  mkRunWorld (fun _ => None)
             (fun i => if (i =? 0)%nat then None else Some "task failed")
             (fun _ => replaced.1.2) (fun _ => replaced.2).

(** A clock read at seconds 58, 59, 1 and 2, and at second 0 from then on. *)
Definition late_seconds (j : nat) : Z :=
  match j with O => 58 | 1%nat => 59 | 2%nat => 1 | 3%nat => 2 | _ => 0 end.

(** One window has been launched, and its cancel function is still stored
    or has been called. *)
Definition one_launched (st : Poll) : Prop :=
  exists id parent v,
    launches (trace st) = [(WithCancel id parent, v)] /\
    (e_cancel st = Some id \/ (e_cancel st = None /\ id ∈ cancelled st)).





End FurtherDefinitions.

(** * Properties *)

(** ** Durations *)

Section DurationFacts.
Import GoTime.
Local Open Scope Z_scope.

Lemma Sub_zero t u : Sub t u = 0 <-> t = u.
Proof.
  unfold Sub, Second, minDuration, maxDuration.
  destruct (Z.ltb_spec ((t - u) * 1000000000) (-9223372036854775808));
    [lia|].
  destruct (Z.ltb_spec 9223372036854775807 ((t - u) * 1000000000)); lia.
Qed.

Lemma Sub_neg t u : Sub t u < 0 <-> t < u.
Proof.
  unfold Sub, Second, minDuration, maxDuration.
  destruct (Z.ltb_spec ((t - u) * 1000000000) (-9223372036854775808));
    [lia|].
  destruct (Z.ltb_spec 9223372036854775807 ((t - u) * 1000000000)); lia.
Qed.

Lemma Sub_eqb t u : (Sub t u =? 0) = (t =? u).
Proof.
  pose proof (Sub_zero t u).
  destruct (Z.eqb_spec (Sub t u) 0), (Z.eqb_spec t u); tauto.
Qed.

Lemma Sub_ltb t u : (Sub t u <? 0) = (t <? u).
Proof.
  pose proof (Sub_neg t u).
  destruct (Z.ltb_spec (Sub t u) 0), (Z.ltb_spec t u); lia.
Qed.

Lemma Sub_geb t u : (Sub t u >=? 0) = (u <=? t).
Proof.
  pose proof (Sub_neg t u). rewrite Z.geb_leb.
  destruct (Z.leb_spec 0 (Sub t u)), (Z.leb_spec u t); lia.
Qed.

End DurationFacts.

(** ** The containment check *)

Section ContainmentFacts.
Import GoTime.
Local Open Scope Z_scope.

(** [CheckTime] with the durations resolved into comparisons of the three
    instants. *)
Lemma CheckTime_unfold sh sm eh em ch cm :
  CheckTime sh sm eh em ch cm =
    if Date sh sm =? Date eh em then (true, false)
    else if Date sh sm <? Date eh em
    then (Date sh sm <=? Date ch cm, Date eh em <=? Date ch cm)
    else if (Date sh sm <=? Date ch cm) || negb (Date eh em <=? Date ch cm)
    then (true, false)
    else (false, Date eh em <=? Date ch cm).
Proof.
  unfold CheckTime. rewrite Sub_eqb, Sub_ltb, !Sub_geb.
  destruct (Date sh sm <=? Date ch cm), (Date eh em <=? Date ch cm);
    reflexivity.
Qed.

(** The scenarios of the boundary table: 09:00-17:00 at 10:30, and
    22:00-06:00 at 23:00, at 05:00 and at 07:00. *)
Example CheckTime_scenarios :
  CheckTime 9 0 17 0 10 30 = (true, false) /\
  CheckTime 22 0 6 0 23 0 = (true, false) /\
  CheckTime 22 0 6 0 5 0 = (true, false) /\
  CheckTime 22 0 6 0 7 0 = (false, true).
Proof. repeat split. Qed.

(** C3, as stated, fails: for the window 22:00-06:00 at 23:00 the current time
    has passed the end boundary, yet [CheckTime] reports [end = false]. *)
Lemma CheckTime_wrapping_counterexample : ~ wrapping_claim 22 0 6 0 23 0.
Proof.
  unfold wrapping_claim. intros H.
  destruct H as [[_ H] _]; [reflexivity|].
  vm_compute in H. discriminate H. intros E. discriminate E.
Qed.

(** C3, amended: for every window that wraps past midnight and every current
    time, [CheckTime] reports [start] exactly when the current time has
    reached the start boundary or has not yet reached the end boundary, and
    [end] exactly when the current time lies between the end boundary
    (included) and the start boundary (excluded); the two are never both
    true. *)
Theorem CheckTime_wrapping sh sm eh em ch cm :
  Date eh em < Date sh sm ->
  CheckTime sh sm eh em ch cm =
    ((Date sh sm <=? Date ch cm) || (Date ch cm <? Date eh em),
     (Date eh em <=? Date ch cm) && (Date ch cm <? Date sh sm)) /\
  ~ ((CheckTime sh sm eh em ch cm).1 = true /\
     (CheckTime sh sm eh em ch cm).2 = true).
Proof.
  intros Hwrap. rewrite CheckTime_unfold.
  destruct (Z.eqb_spec (Date sh sm) (Date eh em)); [lia|].
  destruct (Z.ltb_spec (Date sh sm) (Date eh em)); [lia|].
  destruct (Z.leb_spec (Date sh sm) (Date ch cm)),
           (Z.leb_spec (Date eh em) (Date ch cm)),
           (Z.ltb_spec (Date ch cm) (Date eh em)),
           (Z.ltb_spec (Date ch cm) (Date sh sm));
    simpl; try lia; (split; [reflexivity | intros [? ?]; discriminate]).
Qed.

Lemma CheckTime_wrapping_witness :
  Date 6 0 < Date 22 0 /\
  CheckTime 22 0 6 0 7 0 = (false, true) /\
  CheckTime 22 0 6 0 5 0 = (true, false).
Proof.
  split; [reflexivity|].
  split.
  - exact (proj1 (CheckTime_wrapping 22 0 6 0 7 0 eq_refl)).
  - exact (proj1 (CheckTime_wrapping 22 0 6 0 5 0 eq_refl)).
Defined.

(** C4, as stated, fails on the degenerate window, which "start <= end"
    includes: for 09:00-09:00 at 08:00 [CheckTime] reports [start = true]
    although the current time has not reached the start boundary. *)
Lemma CheckTime_nonwrapping_counterexample : ~ nonwrapping_claim 9 0 9 0 8 0.
Proof.
  unfold nonwrapping_claim. intros H.
  destruct H as [H _]; [vm_compute; discriminate|].
  vm_compute in H. discriminate H.
Qed.

(** C4, amended: for every window whose start lies strictly before its end
    and every current time, [CheckTime] reports
    [start = (now >= startTime)] and [end = (now >= endTime)], and both hold
    only when [now >= endTime]. *)
Theorem CheckTime_same_day sh sm eh em ch cm :
  Date sh sm < Date eh em ->
  CheckTime sh sm eh em ch cm =
    (Date sh sm <=? Date ch cm, Date eh em <=? Date ch cm) /\
  ((CheckTime sh sm eh em ch cm).1 = true /\
  (CheckTime sh sm eh em ch cm).2 = true -> Date eh em <= Date ch cm).
Proof.
  intros Hlt. rewrite CheckTime_unfold.
  destruct (Z.eqb_spec (Date sh sm) (Date eh em)); [lia|].
  destruct (Z.ltb_spec (Date sh sm) (Date eh em)); [|lia].
  split; [reflexivity|]. simpl. intros [_ Hend].
  apply Z.leb_le. exact Hend.
Qed.

Lemma CheckTime_same_day_witness :
  Date 9 0 < Date 17 0 /\ CheckTime 9 0 17 0 10 30 = (true, false).
Proof.
  split; [reflexivity|].
  exact (proj1 (CheckTime_same_day 9 0 17 0 10 30 eq_refl)).
Defined.

(** C5: for every window whose start time equals its end time, and every
    current time, [CheckTime] reports [start = true] and [end = false]. *)
Theorem CheckTime_degenerate sh sm eh em ch cm :
  Date sh sm = Date eh em ->
  CheckTime sh sm eh em ch cm = (true, false).
Proof.
  intros Heq. rewrite CheckTime_unfold.
  destruct (Z.eqb_spec (Date sh sm) (Date eh em)); [reflexivity|lia].
Qed.

Lemma CheckTime_degenerate_witness :
  Date 9 0 = Date 9 0 /\ CheckTime 9 0 9 0 23 59 = (true, false).
Proof.
  split; [reflexivity|].
  exact (CheckTime_degenerate 9 0 9 0 23 59 eq_refl).
Defined.

End ContainmentFacts.

(** ** The configuration container *)

Section ContainerFacts.
Variable Parse : Period -> option error * Period.

(** When every window parses, the loop replaces each window by what [Parse]
    leaves in it and reports no failure. *)
Lemma parse_periods_all k ps :
  Forall (fun v => (Parse v).1 = None) ps ->
  parse_periods Parse k ps = (None, map (fun v => (Parse v).2) ps).
Proof.
  intros Hall. revert k.
  induction Hall as [|v rest Hv _ IH]; intros k; simpl; [reflexivity|].
  destruct (Parse v) as [r v'] eqn:E. simpl in Hv. subst r.
  rewrite IH. reflexivity.
Qed.

(** When some window fails, the loop stops at the first one that does and
    reports its index. *)
Lemma parse_periods_first_failure k0 ps i v err :
  ps !! i = Some v -> (Parse v).1 = Some err ->
  exists k u err' ps',
    (k <= i)%nat /\ ps !! k = Some u /\ (Parse u).1 = Some err' /\
    (forall j x, (j < k)%nat -> ps !! j = Some x -> (Parse x).1 = None) /\
    length ps' = length ps /\
    parse_periods Parse k0 ps = (Some ((k0 + k)%nat, err'), ps').
Proof.
  revert k0 i. induction ps as [|x rest IH]; intros k0 i Hi Hv.
  - rewrite lookup_nil in Hi. discriminate.
  - simpl. destruct (Parse x) as [[e0|] x'] eqn:E.
    + exists O, x, e0, (x' :: rest). rewrite Nat.add_0_r, E. simpl.
      repeat split; try reflexivity; try lia.
    + destruct i as [|i].
      { simpl in Hi. injection Hi as ->. rewrite E in Hv. discriminate. }
      simpl in Hi.
      destruct (IH (S k0) i Hi Hv) as (k & u & err' & ps' & Hk & Hu & Hf & Hb & Hl & Hp).
      exists (S k), u, err', (x' :: ps'). rewrite Hp.
      replace (k0 + S k)%nat with (S k0 + k)%nat by lia.
      repeat split; try assumption; try lia; simpl; try congruence.
      intros [|j] y Hj Hy.
      * simpl in Hy. injection Hy as <-. rewrite E. reflexivity.
      * simpl in Hy. apply (Hb j y); [lia|assumption].
Qed.








(** C10: when every window parses, [SetConfig] writes the parsed windows and
    the defaulted name into the object the caller's pointer refers to,
    allocates nothing, and installs that very pointer; [GetConfig] returns
    it. The engine and the caller therefore share one object: whatever the
    caller writes through its pointer afterwards is what the engine reads. *)
Theorem SetConfig_installs_in_place e (h : gmap loc Config) l c :
  h !! l = Some c ->
  Forall (fun v => (Parse v).1 = None) (Periods c) ->
  let c' := mkConfig (if String.eqb (Name c) EmptyString then "regular"
                      else Name c)
                     (map (fun v => (Parse v).2) (Periods c))
                     (SuccessInterval c) (FailInterval c) in
  let e' := (SetConfig Parse e h (Some l)).1.2 in
  let h' := (SetConfig Parse e h (Some l)).2 in
  SetConfig Parse e h (Some l) = (Ok None, with_cfg (Some l) e, <[l := c']> h) /\
  GetConfig e' = Some l /\
  deref h' (GetConfig e') = Some c' /\
  dom h' = dom h /\
  (forall q, q <> l -> h' !! q = h !! q) /\
  (forall c'', deref (<[l := c'']> h') (GetConfig e') = Some c'').
Proof.
  intros Hl Hall. cbv zeta.
  assert (Heq : SetConfig Parse e h (Some l) =
                (Ok None, with_cfg (Some l) e,
                 <[l := mkConfig (if String.eqb (Name c) EmptyString
                                  then "regular" else Name c)
                                 (map (fun v => (Parse v).2) (Periods c))
                                 (SuccessInterval c) (FailInterval c)]> h)).
  { unfold SetConfig. rewrite Hl, (parse_periods_all 0 _ Hall). simpl.
    destruct (String.eqb (Name c) EmptyString); reflexivity. }
  rewrite Heq. simpl. unfold GetConfig, deref. simpl.
  repeat split.
  - apply lookup_insert_eq.
  - apply dom_insert_lookup_L. rewrite Hl. eauto.
  - intros q Hq. apply lookup_insert_ne. congruence.
  - intros c''. apply lookup_insert_eq.
Qed.

End ContainerFacts.

(** *** A store with two Config objects *)

Section ContainerExamples.
Local Open Scope Z_scope.

Example SetConfig_nil :
  SetConfig ParseHHMM engine1 store1 None = (Ok None, engine1, store1).
Proof. reflexivity. Qed.

Example SetConfig_broken_error :
  (SetConfig ParseHHMM engine1 store1 (Some 2%positive)).1.1 =
    Ok (Some "analysis time period 1 failed: invalid start time").
Proof. vm_compute. reflexivity. Qed.

Example SetConfig_broken_leaves_first_window_parsed :
  Periods <$> (SetConfig ParseHHMM engine1 store1 (Some 2%positive)).2 !! 2%positive =
    Some [mkPeriod "09:00" "17:00" 9 0 17 0; window "25:00" "26:00";
          window "18:00" "19:00"].
Proof. vm_compute. reflexivity. Qed.


Lemma SetConfig_installs_in_place_witness :
  store1 !! 3%positive = Some daytime /\
  Forall (fun v => (ParseHHMM v).1 = None) (Periods daytime) /\
  SetConfig ParseHHMM engine1 store1 (Some 3%positive) =
    (Ok None, with_cfg (Some 3%positive) engine1,
     <[3%positive :=
         mkConfig "regular"
                  [mkPeriod "09:00" "10:00" 9 0 10 0;
                   mkPeriod "11:00" "12:00" 11 0 12 0] 0 (-1)]> store1).
Proof.
  assert (Hall : Forall (fun v => (ParseHHMM v).1 = None) (Periods daytime)).
  { repeat constructor. }
  split; [reflexivity|]. split; [exact Hall|].
  exact (proj1 (SetConfig_installs_in_place ParseHHMM engine1 store1
                  3%positive daytime eq_refl Hall)).
Defined.

End ContainerExamples.

(** ** Shutdown *)

Section ShutdownFacts.

(** C2, as stated, fails: on an engine with no Start in progress the call
    panics, and after a Start the second call in a row panics. *)
Lemma Shutdown_counterexample :
  ~ Shutdown_claim zero_engine /\ ~ Shutdown_claim (make_stopCh zero_engine).
Proof.
  split.
  - intros [H _]. exact H.
  - intros [_ H]. exact (H _ eq_refl).
Qed.

(** C2, amended: [Shutdown] completes without a panic exactly when the stop
    channel is open, which is the case for the first call after [Start] has
    made the channel; it then leaves the channel closed. On an engine with no
    Start in progress (nil channel) it panics, and every call that follows a
    completed one panics. It never blocks: the model is a total function. *)
Theorem Shutdown_once e :
  (no_panic (Shutdown e) <-> stopCh e = ChanOpen) /\
  Shutdown (make_stopCh e) = Ok (with_stopCh ChanClosed e) /\
  (stopCh e = ChanNil -> Shutdown e = Panic "close of nil channel") /\
  (forall e1, Shutdown e = Ok e1 ->
              Shutdown e1 = Panic "close of closed channel").
Proof.
  destruct e as [p c ch]. unfold Shutdown. simpl.
  repeat split.
  - destruct ch; simpl; intros H; try contradiction; reflexivity.
  - intros ->. exact I.
  - intros ->. reflexivity.
  - destruct ch; simpl; intros e1 H; try discriminate.
    injection H as <-. reflexivity.
Qed.

End ShutdownFacts.

(** ** The run loop *)

Section RunLoopFacts.
Import GoTime.
Local Open Scope Z_scope.

(** C8: whenever a call of the task fails and the post-failure delay of the
    Config the loop holds is negative, the run loop returns that error at
    once: the call is its last event, no sleep and no further call follows. *)
Theorem run_loop_fatal_failure w fuel i p c err :
  ctx_done w i = None ->
  task_run w i = Some err ->
  deref (heap_at w i) p = Some c ->
  FailInterval c < 0 ->
  run_loop w (S fuel) i p = (Returned (Some err), [Invoke i]).
Proof.
  intros Hctx Htask Hc Hneg. simpl. rewrite Hctx, Htask, Hc.
  destruct (Z.ltb_spec (FailInterval c) 0); [reflexivity|lia].
Qed.

(** While the task keeps failing, the loop never calls [GetConfig]: it goes
    on with the Config it holds, whatever the engine has installed since. *)
Lemma run_loop_failing_streak w p :
  (forall i, ctx_done w i = None) ->
  (forall i, is_Some (task_run w i)) ->
  (forall i, exists c, deref (heap_at w i) p = Some c /\ 0 <= FailInterval c) ->
  forall fuel i,
    (run_loop w fuel i p).1 = Running /\
    invocations (run_loop w fuel i p).2 = seq i fuel.
Proof.
  intros Hctx Htask Hheap. induction fuel as [|fuel IH]; intros i.
  - split; reflexivity.
  - simpl. rewrite Hctx.
    destruct (Htask i) as [err ->].
    destruct (Hheap i) as (c & -> & Hc).
    destruct (Z.ltb_spec (FailInterval c) 0); [lia|].
    destruct (IH (S i)) as [Ho Hinv].
    destruct (run_loop w fuel (S i) p) as [o tr]. simpl in *.
    split; [assumption|]. unfold invocations in *. simpl. congruence.
Qed.

End RunLoopFacts.

Section RunLoopExamples.
Import GoTime.
Local Open Scope Z_scope.

Lemma run_loop_fatal_failure_witness :
  ctx_done world7 5 = None /\
  task_run world7 5 = Some "task failed" /\
  deref (heap_at world7 5) (Some 2%positive) = Some fatal /\
  FailInterval fatal < 0 /\
  run_loop world7 1 5 (Some 2%positive) =
    (Returned (Some "task failed"), [Invoke 5]).
Proof.
  split; [reflexivity|]. split; [reflexivity|]. split; [reflexivity|].
  split; [reflexivity|].
  exact (run_loop_fatal_failure world7 0 5 (Some 2%positive) fatal
           "task failed" eq_refl eq_refl eq_refl eq_refl).
Defined.

(** C7 does not hold of the code. The Config [retrying] (post-failure delay
    0) is replaced by [fatal] (post-failure delay -1) while the first call of
    a task that always fails is under way. At every iteration the live
    Config has the negative delay, yet the loop, which re-reads the Config
    only after a success, goes on retrying with the delay of the Config it
    read on entry: after any number of iterations it is still running, has
    called the task once per iteration, and has slept 0 ms each time. *)
Theorem run_retries_on_stale_config :
  replaced.1.1 = Ok None /\
  (forall i, FailInterval <$> deref (heap_at world7 i)
                                    (GetConfig (engine_at world7 i))
             = Some (-1)) /\
  forall fuel,
    (run world7 engine7 fuel).1 = Running /\
    invocations (run world7 engine7 fuel).2 = seq 0 fuel.
Proof.
  split; [reflexivity|]. split; [intros i; reflexivity|].
  intros fuel. unfold run.
  apply (run_loop_failing_streak world7 (GetConfig engine7)).
  - intros i. reflexivity.
  - intros i. simpl. eauto.
  - intros i. exists retrying. split; [reflexivity|]. simpl. lia.
Qed.

End RunLoopExamples.

(** ** Start without windows *)

Section StartFacts.
Import GoTime.
Local Open Scope Z_scope.
Variable second_at : nat -> Z.

(** The alignment loop ends as soon as a reading of the seconds is 0; until
    then it only sleeps. *)
Lemma align_reaches_zero e h c :
  deref h (cfg e) = Some c ->
  forall d s, second_at (s + d) = 0 ->
  exists n tr,
    invocations tr = [] /\ launches tr = [] /\
    forall fuel, (n <= fuel)%nat -> align second_at e h fuel s = (None, tr).
Proof.
  intros Hc. induction d as [|d IH]; intros s Hz.
  - rewrite Nat.add_0_r in Hz. exists 1%nat, [].
    split; [reflexivity|]. split; [reflexivity|].
    intros [|fuel] Hf; [lia|]. simpl. rewrite Hz. reflexivity.
  - destruct (Z.eqb_spec (second_at s) 0) as [Hs|Hs].
    + exists 1%nat, []. split; [reflexivity|]. split; [reflexivity|].
      intros [|fuel] Hf; [lia|]. simpl. rewrite Hs. reflexivity.
    + replace (s + S d)%nat with (S s + d)%nat in Hz by lia.
      destruct (IH (S s) Hz) as (n & tr & Hinv & Hlaunch & Hal).
      exists (S n),
        (Sleep (Duration_of (60 - second_at s) Second) :: tr).
      split; [exact Hinv|]. split; [exact Hlaunch|].
      intros [|fuel] Hf; [lia|]. simpl.
      destruct (Z.eqb_spec (second_at s) 0); [contradiction|].
      rewrite Hc, (Hal fuel) by lia. reflexivity.
Qed.

(** C9: with no window configured, a post-success delay of -1 and a task
    that always succeeds, [Start] (entered with a context that is not
    cancelled, on a clock whose seconds reach 0, the Config left alone)
    returns nil after exactly one call of the task. *)
Theorem Start_one_shot e h c0 rw pw c j :
  second_at j = 0 ->
  deref h (GetConfig e) = Some c ->
  Periods c = [] ->
  SuccessInterval c = -1 ->
  (forall i, task_run rw i = None) ->
  ctx_done rw 0 = None ->
  GetConfig (engine_at rw 0) = GetConfig e ->
  heap_at rw 0 = h ->
  exists n tr,
    invocations tr = [0%nat] /\
    forall fuel, (n <= fuel)%nat ->
      Start second_at e h c0 rw pw fuel = (Returned None, tr).
Proof.
  intros Hz Hc Hps Hsucc Htask Hctx Heng Hheap.
  destruct (align_reaches_zero (make_stopCh e) h c Hc j 0%nat Hz)
    as (n & tr & Hinv & _ & Hal).
  exists (S n), (tr ++ [Invoke 0]). split.
  - unfold invocations in *. rewrite omap_app, Hinv. reflexivity.
  - intros fuel Hf. unfold Start. rewrite (Hal fuel) by lia.
    change (GetConfig (make_stopCh e)) with (GetConfig e).
    rewrite Hc, Hps. simpl length. simpl Nat.eqb. cbv iota.
    destruct fuel as [|fuel]; [lia|].
    unfold run. simpl run_loop.
    rewrite Hctx, Htask, Heng, Hheap.
    change (GetConfig (make_stopCh e)) with (GetConfig e).
    rewrite Hc, Hsucc. reflexivity.
Qed.

End StartFacts.

Example oneshot_Start_runs :
  Start seconds9 engine9 store9 Background world9 (world1 (fun _ => (0, 0)%Z))
        2 = (Returned None, [Sleep 23000000000; Invoke 0]).
Proof. vm_compute. reflexivity. Qed.

Lemma Start_one_shot_witness :
  seconds9 1 = 0%Z /\
  deref store9 (GetConfig engine9) = Some oneshot /\
  exists n tr,
    invocations tr = [0%nat] /\
    forall fuel, (n <= fuel)%nat ->
      Start seconds9 engine9 store9 Background world9
            (world1 (fun _ => (0, 0)%Z)) fuel = (Returned None, tr).
Proof.
  split; [reflexivity|]. split; [reflexivity|].
  exact (Start_one_shot seconds9 engine9 store9 Background world9
           (world1 (fun _ => (0, 0)%Z)) oneshot 1
           eq_refl eq_refl eq_refl eq_refl (fun _ => eq_refl) eq_refl
           eq_refl eq_refl).
Defined.

(** ** The polling loop *)

Section PollingFacts.
Local Open Scope Z_scope.

Lemma launches_app tr1 tr2 :
  launches (tr1 ++ tr2) = launches tr1 ++ launches tr2.
Proof. apply omap_app. Qed.

Lemma stop_active_launches id st :
  launches (trace (stop_active id st)) = launches (trace st).
Proof. simpl. rewrite launches_app. apply app_nil_r. Qed.

(** Once [currentStartHour] has left -1, a scan of the windows launches
    nothing and leaves the two remembered components as they are: a window
    that differs from the remembered one is skipped, and the remembered one
    fails the test [currentStartHour != v.startHour]. *)
Lemma scan_no_launch hour minute ps :
  forall st, -1 < currentStartHour st ->
    currentStartHour (scan hour minute ps st) = currentStartHour st /\
    currentStartMinute (scan hour minute ps st) = currentStartMinute st /\
    launches (trace (scan hour minute ps st)) = launches (trace st).
Proof.
  induction ps as [|v rest IH]; intros st Hcur; simpl; [auto|].
  destruct (Z.gtb_spec (currentStartHour st) (-1)) as [_|?]; [|lia].
  destruct (Z.eqb_spec (currentStartHour st) (startHour v)) as [Hh|Hh];
    simpl; [|apply IH; assumption].
  destruct (Z.eqb_spec (currentStartMinute st) (startMinute v)) as [Hm|Hm];
    simpl; [|apply IH; assumption].
  destruct (CheckTime _ _ _ _ _ _) as [start end_].
  rewrite andb_false_r.
  destruct (e_cancel st) as [id|]; [|apply IH; assumption].
  destruct (start && end_); [|apply IH; assumption].
  destruct (IH (stop_active id st) Hcur) as (H1 & H2 & H3).
  rewrite H1, H2, H3, stop_active_launches. auto.
Qed.

(** The part of C1 that holds: at a tick where the remembered window reports
    start and end while a cancel function is stored, the scan calls that
    function and clears [e.cancel]. The two remembered components stay. *)
Lemma scan_cancels_at_window_end hour minute ps v id :
  forall st,
    v ∈ ps ->
    -1 < currentStartHour st ->
    currentStartHour st = startHour v ->
    currentStartMinute st = startMinute v ->
    CheckTime (startHour v) (startMinute v) (endHour v) (endMinute v)
              hour minute = (true, true) ->
    e_cancel st = Some id ->
    e_cancel (scan hour minute ps st) = None /\
    id ∈ cancelled (scan hour minute ps st) /\
    currentStartHour (scan hour minute ps st) = currentStartHour st.
Proof.
  assert (Hkeep : forall qs st, -1 < currentStartHour st ->
            e_cancel st = None ->
            e_cancel (scan hour minute qs st) = None /\
            cancelled (scan hour minute qs st) = cancelled st).
  { induction qs as [|q qs IHq]; intros st Hcur Hnone; simpl; [auto|].
    destruct (Z.gtb_spec (currentStartHour st) (-1)) as [_|?]; [|lia].
    destruct (Z.eqb_spec (currentStartHour st) (startHour q)); simpl;
      [|apply IHq; assumption].
    destruct (Z.eqb_spec (currentStartMinute st) (startMinute q)); simpl;
      [|apply IHq; assumption].
    destruct (CheckTime _ _ _ _ _ _) as [start end_].
    rewrite andb_false_r, Hnone. apply IHq; assumption. }
  induction ps as [|u rest IH]; intros st Hin Hcur Hh Hm Hchk Hid.
  - apply elem_of_nil in Hin. contradiction.
  - pose proof (scan_no_launch hour minute (u :: rest) st Hcur) as (Hsh & _ & _).
    split; [|split; [|exact Hsh]]; simpl.
    + destruct (Z.gtb_spec (currentStartHour st) (-1)) as [_|?]; [|lia].
      apply elem_of_cons in Hin as [<-|Hin].
      * rewrite Hh, Hm, !Z.eqb_refl, Hchk, Hid. simpl.
        apply Hkeep; [assumption|reflexivity].
      * destruct (Z.eqb_spec (currentStartHour st) (startHour u)); simpl;
          [|apply IH; assumption].
        destruct (Z.eqb_spec (currentStartMinute st) (startMinute u)); simpl;
          [|apply IH; assumption].
        destruct (CheckTime (startHour u) _ _ _ _ _) as [start end_].
        rewrite andb_false_r, Hid.
        destruct (start && end_); [|apply IH; assumption].
        apply Hkeep; [assumption|reflexivity].
    + destruct (Z.gtb_spec (currentStartHour st) (-1)) as [_|?]; [|lia].
      apply elem_of_cons in Hin as [<-|Hin].
      * rewrite Hh, Hm, !Z.eqb_refl, Hchk, Hid. simpl.
        destruct (Hkeep rest (stop_active id st) Hcur eq_refl) as [_ ->].
        simpl. apply elem_of_union_l, elem_of_singleton. reflexivity.
      * destruct (Z.eqb_spec (currentStartHour st) (startHour u)); simpl;
          [|apply IH; assumption].
        destruct (Z.eqb_spec (currentStartMinute st) (startMinute u)); simpl;
          [|apply IH; assumption].
        destruct (CheckTime (startHour u) _ _ _ _ _) as [start end_].
        rewrite andb_false_r, Hid.
        destruct (start && end_); [|apply IH; assumption].
        destruct (Hkeep rest (stop_active id st) Hcur eq_refl) as [_ ->].
        simpl. apply elem_of_union_l, elem_of_singleton. reflexivity.
Qed.

Lemma on_stop_launches st :
  launches (trace (on_stop st)) = launches (trace st).
Proof.
  unfold on_stop. destruct (e_cancel st); [|reflexivity].
  simpl. rewrite launches_app. apply app_nil_r.
Qed.

(** After the first launch the polling loop launches nothing any more,
    whatever the clock and the Config do. *)
Lemma poll_never_launches_again pw fuel :
  forall j st, -1 < currentStartHour st ->
    launches (trace (poll pw fuel j st).2) = launches (trace st).
Proof.
  induction fuel as [|fuel IH]; intros j st Hcur; simpl; [reflexivity|].
  destruct (now_at pw j) as [hour minute].
  destruct (deref _ _) as [c|]; [|reflexivity].
  destruct (scan_no_launch hour minute (Periods c) st Hcur) as (Hh & _ & Hl).
  destruct (stop_at pw j).
  - simpl. rewrite on_stop_launches. exact Hl.
  - rewrite IH; [exact Hl | rewrite Hh; exact Hcur].
Qed.

(** Without a shutdown signal, and with a Config installed, the polling loop
    keeps running. *)
Lemma poll_keeps_running pw fuel :
  (forall j, stop_at pw j = false) ->
  (forall j, is_Some (deref (poll_heap_at pw j) (poll_cfg_at pw j))) ->
  forall j st, (poll pw fuel j st).1 = Running.
Proof.
  intros Hstop Hcfg. induction fuel as [|fuel IH]; intros j st; simpl;
    [reflexivity|].
  destruct (now_at pw j) as [hour minute].
  destruct (Hcfg j) as [c ->]. rewrite Hstop. apply IH.
Qed.

(** The loop run for [a + b] ticks is the loop run for [a] ticks and, if it
    is still running, for [b] more. *)
Lemma poll_add pw a b :
  forall j st,
    poll pw (a + b) j st =
      match poll pw a j st with
      | (Running, st') => poll pw b (j + a) st'
      | r => r
      end.
Proof.
  induction a as [|a IH]; intros j st; simpl.
  - rewrite Nat.add_0_r. reflexivity.
  - destruct (now_at pw j) as [hour minute].
    destruct (deref _ _) as [c|]; [|reflexivity].
    destruct (stop_at pw j); [reflexivity|].
    rewrite IH. replace (S j + a)%nat with (j + S a)%nat by lia. reflexivity.
Qed.

End PollingFacts.

Section PollingExamples.
Local Open Scope Z_scope.

Lemma installed_config :
  installed.1.1 = Ok None /\
  deref installed.2 (GetConfig installed.1.2) =
    Some (mkConfig "regular" [first_window; second_window] 0 (-1)).
Proof. split; vm_compute; reflexivity. Qed.

(** The first two ticks in [world1]: the first window is launched at 09:00
    and its context is cancelled at 10:00. [e.cancel] is nil again, but
    [currentStartHour] still holds 9. *)
Lemma poll_two_ticks later :
  poll (world1 later) 2 0 poll_entry =
    (Running,
     mkPoll 9 0 (WithCancel 1 Background) None 2 ({[1%nat]} ∪ ∅)
            [Launch (WithCancel 1 Background) first_window; Cancel 1]).
Proof. vm_compute. reflexivity. Qed.

(** After these two ticks the context of the first window is done, and it
    is the context the loop would derive the next one from. *)
Example first_window_context_done later :
  let st := (poll (world1 later) 2 0 poll_entry).2 in
  Done (cancelled st) (ctx st) = true.
Proof. vm_compute. reflexivity. Qed.

(** C1 does not hold of the code. With the windows 09:00-10:00 and
    11:00-12:00 installed, the loop launches the first window at 09:00 and,
    at 10:00, when its check reports start and end, cancels its context and
    clears [e.cancel]. It does not reset [currentStartHour]: at 11:00 the
    second window reports start and not end, yet it is skipped, and however
    long the loop goes on the first launch remains the only one. *)
Theorem Start_never_picks_up_second_window later k :
  CheckTime 9 0 10 0 10 0 = (true, true) /\
  CheckTime 11 0 12 0 11 0 = (true, false) /\
  poll (world1 later) 2 0 poll_entry =
    (Running,
     mkPoll 9 0 (WithCancel 1 Background) None 2 ({[1%nat]} ∪ ∅)
            [Launch (WithCancel 1 Background) first_window; Cancel 1]) /\
  exists tr,
    Start (fun _ => 0) installed.1.2 installed.2 Background idle
          (world1 later) (3 + k) = (Running, tr) /\
    launches tr = [(WithCancel 1 Background, first_window)].
Proof.
  split; [reflexivity|]. split; [reflexivity|].
  split; [apply poll_two_ticks|].
  destruct installed_config as [_ Hcfg].
  unfold Start.
  change (align (fun _ => 0) (make_stopCh installed.1.2) installed.2 (3 + k) 0)
    with (@None outcome, @nil event).
  cbv iota.
  change (GetConfig (make_stopCh installed.1.2))
    with (GetConfig installed.1.2).
  rewrite Hcfg. simpl length. simpl Nat.eqb. cbv iota.
  change (fresh_id (make_stopCh installed.1.2) Background) with 1%nat.
  change (cancel (make_stopCh installed.1.2)) with (@None nat).
  fold poll_entry.
  replace (3 + k)%nat with (2 + (1 + k))%nat by lia.
  rewrite poll_add, poll_two_ticks.
  set (st2 := mkPoll 9 0 (WithCancel 1 Background) None 2 ({[1%nat]} ∪ ∅)
                [Launch (WithCancel 1 Background) first_window; Cancel 1]).
  pose proof (poll_never_launches_again (world1 later) (1 + k) (0 + 2) st2
                ltac:(simpl; lia)) as Hl.
  pose proof (poll_keeps_running (world1 later) (1 + k)
                (fun _ => eq_refl)
                (fun _ => ex_intro _ _ Hcfg) (0 + 2)%nat st2) as Hr.
  destruct (poll (world1 later) (1 + k) (0 + 2) st2) as [o st'].
  simpl in Hl, Hr. subst o.
  exists (trace st'). split; [reflexivity|exact Hl].
Qed.

End PollingExamples.

(** * Further properties *)

(** ** The containment check, case by case *)

Section ContainmentCases.
Import GoTime.
Local Open Scope Z_scope.

Local Ltac compare_instants :=
  repeat match goal with
  | |- context [?a =? ?b] => destruct (Z.eqb_spec a b)
  | |- context [?a <? ?b] => destruct (Z.ltb_spec a b)
  | |- context [?a <=? ?b] => destruct (Z.leb_spec a b)
  end.

(** X1: [CheckTime] reports start and not end, the test on which the polling
    loop launches a window, exactly when the window is degenerate, or the
    current time lies in the half-open interval from start to end, taken
    around midnight for a window that wraps. *)
Theorem CheckTime_inside sh sm eh em ch cm :
  CheckTime sh sm eh em ch cm = (true, false) <->
  Date sh sm = Date eh em \/
  (Date sh sm < Date eh em /\
   Date sh sm <= Date ch cm /\ Date ch cm < Date eh em) \/
  (Date eh em < Date sh sm /\
   (Date sh sm <= Date ch cm \/ Date ch cm < Date eh em)).
Proof.
  rewrite CheckTime_unfold.
  compare_instants; simpl; split; intros Hyp; try discriminate Hyp;
    try reflexivity; try lia.
Qed.

(** X2: [CheckTime] reports start and end together, the test on which the
    polling loop cancels the active context, exactly when the window starts
    strictly before it ends and the current time has reached the end. *)
Theorem CheckTime_ended sh sm eh em ch cm :
  CheckTime sh sm eh em ch cm = (true, true) <->
  Date sh sm < Date eh em /\ Date eh em <= Date ch cm.
Proof.
  rewrite CheckTime_unfold.
  compare_instants; simpl; split; intros Hyp; try discriminate Hyp;
    try reflexivity; try lia.
Qed.

(** A window that does not start strictly before it ends never reports
    start and end together. *)
Lemma CheckTime_not_both sh sm eh em ch cm :
  Date eh em <= Date sh sm ->
  CheckTime sh sm eh em ch cm <> (true, true).
Proof.
  intros Hle. rewrite CheckTime_unfold.
  compare_instants; simpl; intros Hyp; try discriminate Hyp; lia.
Qed.

End ContainmentCases.

(** ** The polling loop, tick by tick *)

Section PollingFurther.
Import GoTime.
Local Open Scope Z_scope.

Lemma invocations_app tr1 tr2 :
  invocations (tr1 ++ tr2) = invocations tr1 ++ invocations tr2.
Proof. apply omap_app. Qed.

(** A scan calls a cancel function only for a window that reports start and
    end together; a stored cancel function stays stored otherwise. *)
Lemma scan_keeps_context hour minute ps :
  (forall v, v ∈ ps ->
     CheckTime (startHour v) (startMinute v) (endHour v) (endMinute v)
               hour minute <> (true, true)) ->
  forall st,
    cancelled (scan hour minute ps st) = cancelled st /\
    (is_Some (e_cancel st) -> is_Some (e_cancel (scan hour minute ps st))).
Proof.
  induction ps as [|v rest IH]; intros Hps st; simpl; [auto|].
  assert (Hrest : forall u, u ∈ rest ->
            CheckTime (startHour u) (startMinute u) (endHour u) (endMinute u)
                      hour minute <> (true, true)).
  { intros u Hu. apply Hps. apply elem_of_cons. right. assumption. }
  pose proof (Hps v ltac:(apply elem_of_cons; left; reflexivity)) as Hv.
  destruct (_ && _); [apply IH; assumption|].
  destruct (CheckTime _ _ _ _ _ _) as [start end_].
  destruct (start && negb end_ && _).
  - simpl. split; [reflexivity|]. intros _. eauto.
  - destruct (e_cancel st) as [id|] eqn:Hid.
    + destruct start, end_; simpl; try (rewrite <- Hid; apply IH; assumption).
      contradiction Hv. reflexivity.
    + rewrite <- Hid. apply IH; assumption.
Qed.

(** X3: while only windows that do not start strictly before they end are
    configured (windows that wrap past midnight, or degenerate ones), and no
    shutdown is signalled, the polling loop calls no cancel function: a
    context it has launched is never cancelled at the end of its window, and
    [e.cancel] stays set. *)
Theorem poll_never_cancels_wrapping pw fuel :
  (forall i c v,
     deref (poll_heap_at pw i) (poll_cfg_at pw i) = Some c ->
     v ∈ Periods c ->
     Date (endHour v) (endMinute v) <= Date (startHour v) (startMinute v)) ->
  (forall i, stop_at pw i = false) ->
  forall j st,
    cancelled (poll pw fuel j st).2 = cancelled st /\
    (is_Some (e_cancel st) -> is_Some (e_cancel (poll pw fuel j st).2)).
Proof.
  intros Hwrap Hstop. induction fuel as [|fuel IH]; intros j st; simpl;
    [auto|].
  destruct (now_at pw j) as [hour minute].
  destruct (deref _ _) as [c|] eqn:Hc; [|auto].
  rewrite Hstop.
  destruct (scan_keeps_context hour minute (Periods c)
              (fun v Hv => CheckTime_not_both _ _ _ _ hour minute
                             (Hwrap j c v Hc Hv)) st) as [Hcan Hkeep].
  destruct (IH (S j) (scan hour minute (Periods c) st)) as [Hcan' Hkeep'].
  split; [congruence|auto].
Qed.

(** X4: on a tick that finds no window remembered and no cancel function
    stored, the scan launches the first window of the list that contains the
    current time (and whose start hour is not -1), and looks at no window
    after it. *)
Theorem scan_launches_first hour minute pre v post st :
  currentStartHour st = -1 ->
  e_cancel st = None ->
  Forall (fun u => in_window u hour minute = false \/ startHour u = -1) pre ->
  in_window v hour minute = true ->
  startHour v <> -1 ->
  scan hour minute (pre ++ v :: post) st = launch v st.
Proof.
  intros Hcur Hnone Hpre Hin Hsh.
  induction Hpre as [|u pre Hu _ IH]; cbn [app scan]; rewrite Hcur;
    change (-1 >? -1) with false; cbn [andb].
  - unfold in_window in Hin.
    destruct (CheckTime _ _ _ _ _ _) as [start end_]. rewrite Hin.
    destruct (Z.eqb_spec (-1) (startHour v)); [congruence|reflexivity].
  - unfold in_window in Hu.
    destruct (CheckTime (startHour u) _ _ _ _ _) as [start end_].
    rewrite Hnone.
    destruct Hu as [Hu|Hu].
    + rewrite Hu. exact IH.
    + rewrite Hu. change (-1 =? -1) with true. cbn [negb].
      rewrite andb_false_r. exact IH.
Qed.

(** A scan that starts with no window remembered either remembers none
    afterwards and has launched nothing, or has launched exactly one window
    and remembers its start hour. *)
Lemma scan_from_idle hour minute ps :
  (forall v, v ∈ ps -> 0 <= startHour v) ->
  forall st, currentStartHour st = -1 ->
    (currentStartHour (scan hour minute ps st) = -1 /\
     launches (trace (scan hour minute ps st)) = launches (trace st)) \/
    (0 <= currentStartHour (scan hour minute ps st) /\
     length (launches (trace (scan hour minute ps st))) =
       S (length (launches (trace st)))).
Proof.
  induction ps as [|v rest IH]; intros Hps st Hcur; cbn [scan]; [auto|].
  rewrite Hcur. change (-1 >? -1) with false. cbn [andb].
  destruct (CheckTime _ _ _ _ _ _) as [start end_].
  destruct (start && negb end_ && _).
  - right. simpl. split.
    + apply Hps. apply elem_of_cons. left. reflexivity.
    + rewrite launches_app, length_app. simpl. lia.
  - assert (Hrest : forall u, u ∈ rest -> 0 <= startHour u).
    { intros u Hu. apply Hps. apply elem_of_cons. right. assumption. }
    destruct (e_cancel st) as [id|]; [|apply IH; assumption].
    destruct (start && end_); [|apply IH; assumption].
    destruct (IH Hrest (stop_active id st) Hcur) as [[H1 H2]|[H1 H2]].
    + left. rewrite H1, H2, stop_active_launches. auto.
    + right. rewrite H2, stop_active_launches. auto.
Qed.

Lemma poll_at_most_one_launch pw fuel :
  (forall i c v,
     deref (poll_heap_at pw i) (poll_cfg_at pw i) = Some c ->
     v ∈ Periods c -> 0 <= startHour v) ->
  forall j st, currentStartHour st = -1 ->
    (length (launches (trace (poll pw fuel j st).2))
     <= S (length (launches (trace st))))%nat.
Proof.
  intros Hparsed. induction fuel as [|fuel IH]; intros j st Hcur; simpl;
    [lia|].
  destruct (now_at pw j) as [hour minute].
  destruct (deref _ _) as [c|] eqn:Hc; [|simpl; lia].
  destruct (scan_from_idle hour minute (Periods c) (fun v => Hparsed j c v Hc) st Hcur)
    as [[H1 H2]|[H1 H2]].
  - destruct (stop_at pw j).
    + simpl. rewrite on_stop_launches, H2. lia.
    + specialize (IH (S j) _ H1). rewrite H2 in IH. exact IH.
  - destruct (stop_at pw j).
    + simpl. rewrite on_stop_launches, H2. lia.
    + rewrite poll_never_launches_again by lia. lia.
Qed.

End PollingFurther.

Section PollingShutdown.
Local Open Scope Z_scope.

Lemma on_stop_cancels st id :
  e_cancel (on_stop st) = Some id ->
  id ∈ cancelled (on_stop st) /\ last (trace (on_stop st)) = Some (Cancel id).
Proof.
  unfold on_stop. destruct (e_cancel st) as [id'|] eqn:Hid; simpl.
  - intros Heq. injection Heq as ->. split.
    + apply elem_of_union_l, elem_of_singleton. reflexivity.
    + apply last_snoc.
  - rewrite Hid. discriminate.
Qed.

Lemma poll_stops_from pw d :
  forall s st,
    (forall i, (s <= i < s + d)%nat -> stop_at pw i = false) ->
    stop_at pw (s + d) = true ->
    (forall i, (s <= i <= s + d)%nat ->
       is_Some (deref (poll_heap_at pw i) (poll_cfg_at pw i))) ->
    exists st',
      (forall fuel, (d < fuel)%nat -> poll pw fuel s st = (Returned None, st')) /\
      (forall id, e_cancel st' = Some id ->
         id ∈ cancelled st' /\ last (trace st') = Some (Cancel id)).
Proof.
  induction d as [|d IH]; intros s st Hgo Hstop Hcfg.
  - rewrite Nat.add_0_r in Hstop.
    destruct (Hcfg s ltac:(lia)) as [c Hc].
    destruct (now_at pw s) as [hour minute] eqn:Hnow.
    exists (on_stop (scan hour minute (Periods c) st)). split.
    + intros [|fuel] Hf; [lia|]. simpl. rewrite Hnow, Hc, Hstop. reflexivity.
    + apply on_stop_cancels.
  - destruct (Hcfg s ltac:(lia)) as [c Hc].
    destruct (now_at pw s) as [hour minute] eqn:Hnow.
    destruct (IH (S s) (scan hour minute (Periods c) st)) as (st' & Hrun & Hcan).
    + intros i Hi. apply Hgo. lia.
    + replace (S s + d)%nat with (s + S d)%nat by lia. exact Hstop.
    + intros i Hi. apply Hcfg. lia.
    + exists st'. split; [|exact Hcan].
      intros [|fuel] Hf; [lia|]. simpl.
      rewrite Hnow, Hc, (Hgo s) by lia. apply Hrun. lia.
Qed.

(** X7: when the shutdown signal is first found at tick [j] (a Config being
    installed all along), the polling loop returns nil at that tick. If a
    cancel function is stored at that moment, calling it is the last thing
    the loop does; the function stays stored in [e.cancel]. *)
Theorem poll_stops_on_shutdown pw j st :
  (forall i, (i < j)%nat -> stop_at pw i = false) ->
  stop_at pw j = true ->
  (forall i, (i <= j)%nat ->
     is_Some (deref (poll_heap_at pw i) (poll_cfg_at pw i))) ->
  exists st',
    (forall fuel, (j < fuel)%nat -> poll pw fuel 0 st = (Returned None, st')) /\
    (forall id, e_cancel st' = Some id ->
       id ∈ cancelled st' /\ last (trace st') = Some (Cancel id)).
Proof.
  intros Hgo Hstop Hcfg.
  apply (poll_stops_from pw j 0 st).
  - intros i Hi. apply Hgo. lia.
  - exact Hstop.
  - intros i Hi. apply Hcfg. lia.
Qed.

End PollingShutdown.

(** ** Start as a whole *)

Section StartFurther.
Import GoTime.
Local Open Scope Z_scope.
Variable second_at : nat -> Z.

(** The alignment loop only sleeps, and leaves [Start] only by a panic. *)
Lemma align_events e h fuel :
  forall j,
    invocations (align second_at e h fuel j).2 = [] /\
    launches (align second_at e h fuel j).2 = [] /\
    (forall r, (align second_at e h fuel j).1 <> Some (Returned r)).
Proof.
  induction fuel as [|fuel IH]; intros j; simpl.
  - repeat split. discriminate.
  - destruct (second_at j =? 0); [repeat split; discriminate|].
    destruct (deref h (cfg e)); [|repeat split; discriminate].
    destruct (IH (S j)) as (Hi & Hl & Ho).
    destruct (align second_at e h fuel (S j)) as [o tr]. simpl in *.
    auto.
Qed.

Lemma run_loop_launches w fuel :
  forall i p, launches (run_loop w fuel i p).2 = [].
Proof.
  induction fuel as [|fuel IH]; intros i p; simpl; [reflexivity|].
  destruct (ctx_done w i); [reflexivity|].
  destruct (task_run w i).
  - destruct (deref _ p) as [c|]; [|reflexivity].
    destruct (FailInterval c <? 0); [reflexivity|].
    specialize (IH (S i) p).
    destruct (run_loop w fuel (S i) p) as [o tr]. exact IH.
  - destruct (deref _ _) as [c|]; [|reflexivity].
    destruct (SuccessInterval c <? 0); [reflexivity|].
    specialize (IH (S i) (GetConfig (engine_at w i))).
    destruct (run_loop w fuel (S i) _) as [o tr]. exact IH.
Qed.

Lemma scan_invocations hour minute ps :
  forall st,
    invocations (trace (scan hour minute ps st)) = invocations (trace st).
Proof.
  induction ps as [|v rest IH]; intros st; simpl; [reflexivity|].
  destruct (_ && _); [apply IH|].
  destruct (CheckTime _ _ _ _ _ _) as [start end_].
  destruct (start && negb end_ && _).
  - simpl. rewrite invocations_app. apply app_nil_r.
  - destruct (e_cancel st) as [id|]; [|apply IH].
    destruct (start && end_); [|apply IH].
    rewrite IH. simpl. rewrite invocations_app. apply app_nil_r.
Qed.

(** The polling loop calls no task itself and returns nothing but nil. *)
Lemma poll_contains_task pw fuel :
  forall j st,
    invocations (trace (poll pw fuel j st).2) = invocations (trace st) /\
    (forall err, (poll pw fuel j st).1 <> Returned (Some err)).
Proof.
  induction fuel as [|fuel IH]; intros j st; simpl.
  - split; [reflexivity|discriminate].
  - destruct (now_at pw j) as [hour minute].
    destruct (deref _ _) as [c|]; [|split; [reflexivity|discriminate]].
    destruct (stop_at pw j).
    + simpl. split; [|discriminate].
      unfold on_stop. destruct (e_cancel _); simpl.
      * rewrite invocations_app, scan_invocations. apply app_nil_r.
      * apply scan_invocations.
    + destruct (IH (S j) (scan hour minute (Periods c) st)) as [Hi Ho].
      rewrite Hi, scan_invocations. auto.
Qed.

(** X5: when the parsed windows the polling loop meets have start hours
    from 0 upwards, one call of [Start] launches at most one run loop,
    however long it polls and whatever the clock and the Config do. *)
Theorem Start_at_most_one_launch e h c0 rw pw fuel :
  (forall i c v,
     deref (poll_heap_at pw i) (poll_cfg_at pw i) = Some c ->
     v ∈ Periods c -> 0 <= startHour v) ->
  (length (launches (Start second_at e h c0 rw pw fuel).2) <= 1)%nat.
Proof.
  intros Hparsed. unfold Start.
  destruct (align_events (make_stopCh e) h fuel 0%nat) as (_ & Hal & _).
  destruct (align second_at (make_stopCh e) h fuel 0) as [[o|] tr];
    simpl in Hal; simpl; [rewrite Hal; simpl; lia|].
  destruct (deref h _) as [c|]; simpl; [|rewrite Hal; simpl; lia].
  destruct (length (Periods c) =? 0)%nat.
  - pose proof (run_loop_launches rw fuel 0%nat
                  (GetConfig (make_stopCh e))) as Hrun.
    unfold run. destruct (run_loop rw fuel 0 _) as [o tr']. simpl in *.
    rewrite launches_app, Hal, Hrun. simpl. lia.
  - pose proof (poll_at_most_one_launch pw fuel Hparsed 0%nat
                  (mkPoll (-1) (-1) c0 (cancel (make_stopCh e))
                          (fresh_id (make_stopCh e) c0) ∅ []) eq_refl) as Hp.
    destruct (poll pw fuel 0 _) as [o st']. simpl in *.
    rewrite launches_app, Hal. simpl. exact Hp.
Qed.

(** X6: with at least one window configured, [Start] calls no task itself
    (tasks run in the goroutines it launches) and never returns an error:
    whatever the launched run loops meet stays with them. *)
Theorem Start_with_windows_contains_task e h c0 rw pw c fuel :
  deref h (GetConfig e) = Some c ->
  Periods c <> [] ->
  invocations (Start second_at e h c0 rw pw fuel).2 = [] /\
  (forall err,
     (Start second_at e h c0 rw pw fuel).1 <> Returned (Some err)).
Proof.
  intros Hc Hps. unfold Start.
  destruct (align_events (make_stopCh e) h fuel 0%nat) as (Hal & _ & Hout).
  destruct (align second_at (make_stopCh e) h fuel 0) as [[o|] tr];
    simpl in Hal, Hout; cbv iota beta.
  - split; [exact Hal|]. intros err Heq. apply (Hout (Some err)).
    simpl in Heq. congruence.
  - change (GetConfig (make_stopCh e)) with (GetConfig e). rewrite Hc.
    destruct (Periods c) as [|v rest]; [contradiction|].
    simpl length. simpl Nat.eqb. cbv iota.
    destruct (poll_contains_task pw fuel 0%nat
                (mkPoll (-1) (-1) c0 (cancel (make_stopCh e))
                        (fresh_id (make_stopCh e) c0) ∅ [])) as [Hi Ho].
    destruct (poll pw fuel 0 _) as [o st']. simpl in *.
    split; [|exact Ho].
    rewrite invocations_app, Hal, Hi. reflexivity.
Qed.

Lemma align_waiting e h c fuel :
  deref h (cfg e) = Some c ->
  forall j,
    (forall k, (j <= k < j + fuel)%nat -> second_at k <> 0) ->
    align second_at e h fuel j =
      (Some Running, alignment_sleeps second_at j fuel).
Proof.
  intros Hc. induction fuel as [|fuel IH]; intros j Hne; simpl;
    [reflexivity|].
  destruct (Z.eqb_spec (second_at j) 0) as [Hz|_].
  - exfalso. apply (Hne j); [lia|exact Hz].
  - rewrite Hc, IH; [reflexivity|]. intros k Hk. apply Hne. lia.
Qed.

(** X8: as long as no reading of the seconds is 0, [Start] only sleeps, each
    time for 60 minus the seconds read: it calls no task and launches
    nothing before the clock is aligned to the minute. *)
Theorem Start_waits_for_alignment e h c0 rw pw c fuel :
  deref h (GetConfig e) = Some c ->
  (forall k, (k < fuel)%nat -> second_at k <> 0) ->
  Start second_at e h c0 rw pw fuel =
    (Running, alignment_sleeps second_at 0 fuel).
Proof.
  intros Hc Hne. unfold Start.
  rewrite (align_waiting (make_stopCh e) h c fuel Hc 0%nat); [reflexivity|].
  intros k Hk. apply Hne. lia.
Qed.

(** X9: [NewWithLogger] (and so [New]) accepts the nil Config and returns
    an engine without an error; on that engine, which has no Config, [Start]
    panics on a nil pointer before it does anything else, whatever the clock
    reads. *)
Theorem Start_without_config_panics Parse h c0 rw pw e fuel :
  (NewWithLogger Parse h None).1 = Ok (Some e, None) ->
  Start second_at e h c0 rw pw (S fuel) = (Panicked nil_dereference, []).
Proof.
  intros Hnew. simpl in Hnew. injection Hnew as <-.
  unfold Start. simpl align.
  destruct (second_at 0 =? 0); reflexivity.
Qed.

End StartFurther.

(** ** The run loop over many iterations *)

Section RunLoopFurther.
Import GoTime.
Local Open Scope Z_scope.

(** X10: the calls of the task made by a run loop that starts at iteration
    [i] are the calls number [i], [i+1], ... in this order, none twice and
    none skipped; none of them is made at an iteration that found the
    context done; and a loop that is still running has made one call per
    iteration. *)
Theorem run_loop_invokes_in_order w fuel :
  forall i p,
  exists n,
    (n <= fuel)%nat /\
    invocations (run_loop w fuel i p).2 = seq i n /\
    (forall k, (i <= k < i + n)%nat -> ctx_done w k = None) /\
    ((run_loop w fuel i p).1 = Running -> n = fuel).
Proof.
  induction fuel as [|fuel IH]; intros i p; simpl.
  - exists 0%nat. repeat split; try (intros; lia).
  - destruct (ctx_done w i) eqn:Hctx.
    { exists 0%nat. repeat split; try (intros; lia); discriminate. }
    assert (Hone : forall k, (i <= k < i + 1)%nat -> ctx_done w k = None).
    { intros k Hk. replace k with i by lia. exact Hctx. }
    assert (Hstep : forall q o tr ev,
              (exists n, (n <= fuel)%nat /\
                 invocations (run_loop w fuel (S i) q).2 = seq (S i) n /\
                 (forall k, (S i <= k < S i + n)%nat -> ctx_done w k = None) /\
                 ((run_loop w fuel (S i) q).1 = Running -> n = fuel)) ->
              run_loop w fuel (S i) q = (o, tr) ->
              exists n, (n <= S fuel)%nat /\
                 invocations (Invoke i :: Sleep ev :: tr) = seq i n /\
                 (forall k, (i <= k < i + n)%nat -> ctx_done w k = None) /\
                 (o = Running -> n = S fuel)).
    { intros q o tr ev (n & Hn & Hinv & Hlive & Hrun) Heq.
      rewrite Heq in Hinv, Hrun. simpl in Hinv, Hrun.
      exists (S n). split; [lia|]. split.
      - change (invocations (Invoke i :: Sleep ev :: tr))
          with (i :: invocations tr).
        rewrite Hinv. reflexivity.
      - split.
        + intros k Hk. destruct (decide (k = i)) as [->|Hne];
            [exact Hctx|apply Hlive; lia].
        + intros Ho. rewrite (Hrun Ho). reflexivity. }
    destruct (task_run w i).
    + destruct (deref _ p) as [c|].
      * destruct (FailInterval c <? 0).
        { exists 1%nat. repeat split; try lia; try discriminate; exact Hone. }
        destruct (run_loop w fuel (S i) p) as [o tr] eqn:Heq.
        apply (Hstep p o tr _ (IH (S i) p) Heq).
      * exists 1%nat. repeat split; try lia; try discriminate; exact Hone.
    + destruct (deref _ _) as [c|].
      * destruct (SuccessInterval c <? 0).
        { exists 1%nat. repeat split; try lia; try discriminate; exact Hone. }
        destruct (run_loop w fuel (S i) (GetConfig (engine_at w i)))
          as [o tr] eqn:Heq.
        apply (Hstep _ o tr _ (IH (S i) _) Heq).
      * exists 1%nat. repeat split; try lia; try discriminate; exact Hone.
Qed.

Lemma failed_calls_S ms i n :
  failed_calls ms i (S n) =
    Invoke i :: Sleep (Duration_of ms Millisecond) :: failed_calls ms (S i) n.
Proof. reflexivity. Qed.

(** X11: a task that fails [d] times in a row and then succeeds, run under a
    Config with a post-failure delay of 0 or more that is left alone, and
    with a negative post-success delay in the live Config at the success, is
    called [d + 1] times, with one sleep of the post-failure delay after each
    failure, and the run loop returns nil. *)
Theorem run_loop_retries_until_success w p c c' d k :
  forall s,
    (forall i, (s <= i <= s + d)%nat -> ctx_done w i = None) ->
    (forall i, (s <= i < s + d)%nat -> is_Some (task_run w i)) ->
    task_run w (s + d) = None ->
    (forall i, (s <= i < s + d)%nat -> deref (heap_at w i) p = Some c) ->
    0 <= FailInterval c ->
    deref (heap_at w (s + d)) (GetConfig (engine_at w (s + d))) = Some c' ->
    SuccessInterval c' < 0 ->
    run_loop w (S d + k) s p =
      (Returned None, failed_calls (FailInterval c) s d ++ [Invoke (s + d)%nat]).
Proof.
  induction d as [|d IH]; intros s Hctx Hfail Hok Hheap Hdelay Hlive Hneg.
  - rewrite Nat.add_0_r in *. simpl.
    rewrite (Hctx s) by lia. rewrite Hok, Hlive.
    destruct (Z.ltb_spec (SuccessInterval c') 0); [reflexivity|lia].
  - replace (s + S d)%nat with (S s + d)%nat in * by lia.
    change (S (S d) + k)%nat with (S (S d + k)).
    cbn [run_loop]. rewrite (Hctx s) by lia.
    destruct (Hfail s ltac:(lia)) as [err ->].
    rewrite (Hheap s) by lia.
    destruct (Z.ltb_spec (FailInterval c) 0); [lia|].
    rewrite (IH (S s)); try assumption.
    + rewrite failed_calls_S. reflexivity.
    + intros i Hi. apply Hctx. lia.
    + intros i Hi. apply Hfail. lia.
    + intros i Hi. apply Hheap. lia.
Qed.

(** X12: after a successful call the loop goes on with the Config the engine
    holds at that moment, whichever it held before: a failure of the next
    call is fatal when the post-failure delay of that Config is negative. *)
Theorem run_loop_adopts_live_config w fuel i p q c cq err :
  ctx_done w i = None ->
  task_run w i = None ->
  GetConfig (engine_at w i) = q ->
  deref (heap_at w i) q = Some c ->
  0 <= SuccessInterval c ->
  ctx_done w (S i) = None ->
  task_run w (S i) = Some err ->
  deref (heap_at w (S i)) q = Some cq ->
  FailInterval cq < 0 ->
  run_loop w (S (S fuel)) i p =
    (Returned (Some err),
     [Invoke i; Sleep (Duration_of (SuccessInterval c) Millisecond);
      Invoke (S i)]).
Proof.
  intros Hctx Hok Hq Hc Hdelay Hctx' Hfail Hcq Hneg.
  cbn [run_loop]. rewrite Hctx, Hok, Hq, Hc.
  destruct (Z.ltb_spec (SuccessInterval c) 0); [lia|].
  rewrite Hctx', Hfail, Hcq.
  destruct (Z.ltb_spec (FailInterval cq) 0); [reflexivity|lia].
Qed.

End RunLoopFurther.

(** ** The configuration container, further *)

Section ContainerFurther.
Variable Parse : Period -> option error * Period.

(** Where the loop over the windows stops at a failure, the windows up to
    and including the failing one are as [Parse] left them and the windows
    after it have not been touched. *)
Lemma parse_periods_stops_at ps :
  forall k0 n err ps',
    parse_periods Parse k0 ps = (Some (n, err), ps') ->
    exists k,
      n = (k0 + k)%nat /\ (k < length ps)%nat /\
      ps' = map (fun v => (Parse v).2) (take (S k) ps) ++ drop (S k) ps.
Proof.
  induction ps as [|v rest IH]; intros k0 n err ps' Heq; simpl in Heq.
  - discriminate.
  - destruct (Parse v) as [[e0|] v'] eqn:E.
    + injection Heq as <- <- <-. exists 0%nat. simpl. rewrite E, drop_0.
      repeat split; lia.
    + destruct (parse_periods Parse (S k0) rest) as [r rest'] eqn:Hr.
      injection Heq as -> <-.
      destruct (IH _ _ _ _ Hr) as (k & -> & Hk & ->).
      exists (S k). simpl. rewrite E. repeat split; lia.
Qed.

(** X13: a Config that [SetConfig] rejects is left half-parsed in the
    caller's hands: its windows up to and including the failing one are as
    [Parse] left them, the windows after it are untouched, and its name is
    not defaulted. *)
Theorem SetConfig_rejected_half_parsed e (h : gmap loc Config) l c msg :
  h !! l = Some c ->
  (SetConfig Parse e h (Some l)).1.1 = Ok (Some msg) ->
  exists k err,
    msg = analysis_failed k err /\
    (k < length (Periods c))%nat /\
    (SetConfig Parse e h (Some l)).2 !! l =
      Some (mkConfig (Name c)
              (map (fun v => (Parse v).2) (take (S k) (Periods c))
               ++ drop (S k) (Periods c))
              (SuccessInterval c) (FailInterval c)).
Proof.
  intros Hl. unfold SetConfig. rewrite Hl.
  destruct (parse_periods Parse 0 (Periods c)) as [[[n err]|] ps'] eqn:Hp;
    simpl; [|discriminate].
  intros Hmsg. injection Hmsg as <-.
  destruct (parse_periods_stops_at _ _ _ _ _ Hp) as (k & -> & Hk & ->).
  exists k, err. split; [reflexivity|]. split; [exact Hk|].
  apply lookup_insert_eq.
Qed.

(** X14: whenever [SetConfig] accepts a Config, the Config the engine then
    holds has a name that is not empty: the name the caller gave, or
    "regular" if the caller gave none. *)
Theorem SetConfig_name_never_empty e (h : gmap loc Config) l c :
  h !! l = Some c ->
  (SetConfig Parse e h (Some l)).1.1 = Ok None ->
  exists c',
    deref (SetConfig Parse e h (Some l)).2
          (GetConfig (SetConfig Parse e h (Some l)).1.2) = Some c' /\
    Name c' <> EmptyString /\
    Name c' = (if String.eqb (Name c) EmptyString then "regular" else Name c).
Proof.
  intros Hl. unfold SetConfig. rewrite Hl.
  destruct (parse_periods Parse 0 (Periods c)) as [[[n err]|] ps'];
    simpl; [discriminate|]. intros _.
  unfold deref, GetConfig. simpl.
  destruct (String.eqb_spec (Name c) EmptyString) as [Hn|Hn];
    eexists; (split; [apply lookup_insert_eq|]); simpl; split;
    try reflexivity; try discriminate; try assumption.
Qed.

(** X15: [NewWithLogger] (and so [New]) on a Config with a window that fails
    to parse returns no engine, and the error of [SetConfig] for the first
    such window. *)
Theorem NewWithLogger_rejects (h : gmap loc Config) l c i v err :
  h !! l = Some c ->
  Periods c !! i = Some v ->
  (Parse v).1 = Some err ->
  exists k u err',
    (NewWithLogger Parse h (Some l)).1 =
      Ok (None, Some (analysis_failed k err')) /\
    (k <= i)%nat /\
    Periods c !! k = Some u /\ (Parse u).1 = Some err' /\
    (forall j x, (j < k)%nat -> Periods c !! j = Some x -> (Parse x).1 = None).
Proof.
  intros Hl Hi Hv.
  destruct (parse_periods_first_failure Parse 0 (Periods c) i v err Hi Hv)
    as (k & u & err' & ps' & Hk & Hu & Hf & Hb & _ & Hp).
  exists k, u, err'. unfold NewWithLogger, SetConfig. rewrite Hl, Hp. simpl.
  repeat split; assumption.
Qed.

End ContainerFurther.

(** ** Shutdown and the launched context *)

Section ShutdownFurther.
Local Open Scope Z_scope.

Lemma stop_active_one_launched id st :
  e_cancel st = Some id -> one_launched st -> one_launched (stop_active id st).
Proof.
  intros Hid (id' & parent & v & Hl & Hc).
  exists id', parent, v. rewrite stop_active_launches. split; [exact Hl|].
  right. split; [reflexivity|]. simpl.
  destruct Hc as [Hc|[Hc _]]; [|congruence].
  rewrite Hid in Hc. injection Hc as ->.
  apply elem_of_union_l, elem_of_singleton. reflexivity.
Qed.

Lemma scan_one_launched hour minute ps :
  forall st, -1 < currentStartHour st -> one_launched st ->
    one_launched (scan hour minute ps st).
Proof.
  induction ps as [|v rest IH]; intros st Hcur Hone; simpl; [exact Hone|].
  destruct (Z.gtb_spec (currentStartHour st) (-1)) as [_|?]; [|lia].
  destruct (Z.eqb_spec (currentStartHour st) (startHour v)); simpl;
    [|apply IH; assumption].
  destruct (Z.eqb_spec (currentStartMinute st) (startMinute v)); simpl;
    [|apply IH; assumption].
  destruct (CheckTime _ _ _ _ _ _) as [start end_].
  rewrite andb_false_r.
  destruct (e_cancel st) as [id|] eqn:Hid; [|apply IH; assumption].
  destruct (start && end_); [|apply IH; assumption].
  apply IH; [exact Hcur|]. apply stop_active_one_launched; assumption.
Qed.

Lemma scan_first_launch hour minute ps :
  (forall v, v ∈ ps -> 0 <= startHour v) ->
  forall st, currentStartHour st = -1 -> launches (trace st) = [] ->
    (currentStartHour (scan hour minute ps st) = -1 /\
     launches (trace (scan hour minute ps st)) = []) \/
    (0 <= currentStartHour (scan hour minute ps st) /\
     one_launched (scan hour minute ps st)).
Proof.
  induction ps as [|v rest IH]; intros Hps st Hcur Hl; cbn [scan]; [auto|].
  rewrite Hcur. change (-1 >? -1) with false. cbn [andb].
  destruct (CheckTime _ _ _ _ _ _) as [start end_].
  destruct (start && negb end_ && _).
  - right. split.
    + simpl. apply Hps. apply elem_of_cons. left. reflexivity.
    + exists (next_id st), (ctx st), v. simpl.
      rewrite launches_app, Hl. auto.
  - assert (Hrest : forall u, u ∈ rest -> 0 <= startHour u).
    { intros u Hu. apply Hps. apply elem_of_cons. right. assumption. }
    destruct (e_cancel st) as [id|]; [|apply IH; assumption].
    destruct (start && end_); [|apply IH; assumption].
    apply IH; try assumption. rewrite stop_active_launches. exact Hl.
Qed.

Lemma on_stop_done st :
  one_launched st ->
  forall c v, (c, v) ∈ launches (trace (on_stop st)) ->
    Done (cancelled (on_stop st)) c = true.
Proof.
  intros (id & parent & u & Hl & Hc) c v Hin.
  rewrite on_stop_launches, Hl in Hin.
  apply list_elem_of_singleton in Hin. injection Hin as -> ->.
  simpl. apply orb_true_iff. left. apply bool_decide_eq_true.
  unfold on_stop. destruct Hc as [Hc|[Hc Hin]]; rewrite Hc; simpl.
  - apply elem_of_union_l, elem_of_singleton. reflexivity.
  - exact Hin.
Qed.

Lemma poll_returns_done_active pw fuel :
  forall j st st',
    -1 < currentStartHour st -> one_launched st ->
    poll pw fuel j st = (Returned None, st') ->
    forall c v, (c, v) ∈ launches (trace st') -> Done (cancelled st') c = true.
Proof.
  induction fuel as [|fuel IH]; intros j st st' Hcur Hone; simpl;
    [discriminate|].
  destruct (now_at pw j) as [hour minute].
  destruct (deref _ _) as [c0|]; [|discriminate].
  pose proof (scan_one_launched hour minute (Periods c0) st Hcur Hone) as Hs.
  destruct (scan_no_launch hour minute (Periods c0) st Hcur) as (Hh & _ & _).
  destruct (stop_at pw j).
  - intros Heq. injection Heq as <-. apply on_stop_done. exact Hs.
  - apply IH; [rewrite Hh; exact Hcur|exact Hs].
Qed.

(** X16: when the polling loop returns on the shutdown signal, the context
    of every run loop it has launched is done: the window ended and its
    context was cancelled then, or it is cancelled at the shutdown. (The
    parsed windows have start hours from 0 upwards.) *)
Theorem poll_shutdown_leaves_no_context pw fuel :
  (forall i c v,
     deref (poll_heap_at pw i) (poll_cfg_at pw i) = Some c ->
     v ∈ Periods c -> 0 <= startHour v) ->
  forall j st st',
    currentStartHour st = -1 ->
    launches (trace st) = [] ->
    poll pw fuel j st = (Returned None, st') ->
    forall c v, (c, v) ∈ launches (trace st') -> Done (cancelled st') c = true.
Proof.
  intros Hparsed. induction fuel as [|fuel IH]; intros j st st' Hcur Hl;
    simpl; [discriminate|].
  destruct (now_at pw j) as [hour minute].
  destruct (deref _ _) as [c0|] eqn:Hc0; [|discriminate].
  destruct (scan_first_launch hour minute (Periods c0)
              (fun v => Hparsed j c0 v Hc0) st Hcur Hl) as [[H1 H2]|[H1 H2]].
  - destruct (stop_at pw j).
    + intros Heq. injection Heq as <-. intros c v Hin.
      rewrite on_stop_launches, H2 in Hin. apply elem_of_nil in Hin.
      contradiction.
    + apply IH; assumption.
  - destruct (stop_at pw j).
    + intros Heq. injection Heq as <-. apply on_stop_done. exact H2.
    + apply poll_returns_done_active; [lia|exact H2].
Qed.

End ShutdownFurther.

(** ** The length of a sleep *)

Section SleepFurther.
Import GoTime.
Local Open Scope Z_scope.

Lemma wrap64_range x : -2 ^ 63 <= wrap64 x < 2 ^ 63.
Proof.
  unfold wrap64.
  pose proof (Z.mod_pos_bound (x + 2 ^ 63) (2 ^ 64) ltac:(lia)). lia.
Qed.

(** X17: the sleep [time.Duration(ms) * time.Millisecond] of the run loop
    lasts the configured number of milliseconds exactly when that number is
    at most 9223372036854 in magnitude; a larger delay wraps around in the
    64-bit Duration. *)
Theorem Duration_of_milliseconds ms :
  Duration_of ms Millisecond = ms * 1000000 <->
  -9223372036854 <= ms <= 9223372036854.
Proof.
  unfold Duration_of, Millisecond. split.
  - intros Heq. pose proof (wrap64_range (ms * 1000000)) as Hr.
    rewrite Heq in Hr. lia.
  - intros Hr. unfold wrap64. rewrite Z.mod_small; lia.
Qed.

End SleepFurther.

(** ** The further properties at work *)

Section FurtherExamples.
Import GoTime.
Local Open Scope Z_scope.

Lemma night_world_config i :
  deref (poll_heap_at night_world i) (poll_cfg_at night_world i) =
    Some nightly.
Proof. reflexivity. Qed.

Lemma night_world_window i c v :
  deref (poll_heap_at night_world i) (poll_cfg_at night_world i) = Some c ->
  v ∈ Periods c ->
  v = mkPeriod "22:00" "06:00" 22 0 6 0.
Proof.
  rewrite night_world_config. intros Hc Hv. injection Hc as <-.
  apply list_elem_of_singleton in Hv. exact Hv.
Qed.

Lemma poll_never_cancels_wrapping_witness :
  (forall i c v,
     deref (poll_heap_at night_world i) (poll_cfg_at night_world i) = Some c ->
     v ∈ Periods c ->
     Date (endHour v) (endMinute v) <= Date (startHour v) (startMinute v)) /\
  (forall i, stop_at night_world i = false) /\
  cancelled (poll night_world 48 0 poll_entry).2 = ∅.
Proof.
  assert (Hwrap : forall i c v,
     deref (poll_heap_at night_world i) (poll_cfg_at night_world i) = Some c ->
     v ∈ Periods c ->
     Date (endHour v) (endMinute v) <= Date (startHour v) (startMinute v)).
  { intros i c v Hc Hv. rewrite (night_world_window i c v Hc Hv).
    vm_compute. discriminate. }
  split; [exact Hwrap|]. split; [reflexivity|].
  exact (proj1 (poll_never_cancels_wrapping night_world 48 Hwrap
                  (fun _ => eq_refl) 0%nat poll_entry)).
Defined.

Lemma scan_launches_first_witness :
  currentStartHour poll_entry = -1 /\
  e_cancel poll_entry = None /\
  Forall (fun u => in_window u 11 30 = false \/ startHour u = -1)
         [first_window] /\
  in_window second_window 11 30 = true /\
  startHour second_window <> -1 /\
  scan 11 30 ([first_window] ++ second_window :: []) poll_entry =
    launch second_window poll_entry.
Proof.
  assert (Hpre : Forall (fun u => in_window u 11 30 = false \/ startHour u = -1)
                        [first_window]).
  { constructor; [left; reflexivity|constructor]. }
  assert (Hsh : startHour second_window <> -1) by discriminate.
  split; [reflexivity|]. split; [reflexivity|]. split; [exact Hpre|].
  split; [reflexivity|]. split; [exact Hsh|].
  exact (scan_launches_first 11 30 [first_window] second_window [] poll_entry
           eq_refl eq_refl Hpre eq_refl Hsh).
Defined.

Lemma Start_at_most_one_launch_witness :
  (forall i c v,
     deref (poll_heap_at night_world i) (poll_cfg_at night_world i) = Some c ->
     v ∈ Periods c -> 0 <= startHour v) /\
  (length (launches (Start (fun _ => 0%Z) engine1 store1 Background idle
                           night_world 72).2) <= 1)%nat.
Proof.
  assert (Hparsed : forall i c v,
     deref (poll_heap_at night_world i) (poll_cfg_at night_world i) = Some c ->
     v ∈ Periods c -> 0 <= startHour v).
  { intros i c v Hc Hv. rewrite (night_world_window i c v Hc Hv).
    vm_compute. discriminate. }
  split; [exact Hparsed|].
  exact (Start_at_most_one_launch (fun _ => 0) engine1 store1 Background idle
           night_world 72 Hparsed).
Defined.

Lemma Start_with_windows_contains_task_witness :
  deref store1 (GetConfig engine1) = Some nightly /\
  Periods nightly <> [] /\
  invocations (Start (fun _ => 0) engine1 store1 Background idle
                     night_world 72).2 = [].
Proof.
  assert (Hps : Periods nightly <> []) by discriminate.
  split; [reflexivity|]. split; [exact Hps|].
  exact (proj1 (Start_with_windows_contains_task (fun _ => 0) engine1 store1
                  Background idle night_world nightly 72 eq_refl Hps)).
Defined.

Lemma poll_stops_on_shutdown_witness :
  (forall i, (i < 3)%nat -> stop_at stopping_world i = false) /\
  stop_at stopping_world 3 = true /\
  exists st',
    (forall fuel, (3 < fuel)%nat ->
       poll stopping_world fuel 0 poll_entry = (Returned None, st')) /\
    (forall id, e_cancel st' = Some id ->
       id ∈ cancelled st' /\ last (trace st') = Some (Cancel id)).
Proof.
  assert (Hgo : forall i, (i < 3)%nat -> stop_at stopping_world i = false).
  { intros i Hi. simpl. apply Nat.eqb_neq. lia. }
  split; [exact Hgo|]. split; [reflexivity|].
  exact (poll_stops_on_shutdown stopping_world 3 poll_entry Hgo eq_refl
           (fun i _ => ex_intro _ nightly eq_refl)).
Defined.

(** At the shutdown of [stopping_world] the window 22:00-06:00, launched at
    the first tick (midnight), is still active; its cancel function is
    called and stays stored. *)
Example poll_stopping_world :
  poll stopping_world 4 0 poll_entry =
    (Returned None,
     mkPoll 22 0 (WithCancel 1 Background) (Some 1%nat) 2 ({[1%nat]} ∪ ∅)
            [Launch (WithCancel 1 Background)
                    (mkPeriod "22:00" "06:00" 22 0 6 0);
             Cancel 1]).
Proof. vm_compute. reflexivity. Qed.

Lemma Start_waits_for_alignment_witness :
  deref store1 (GetConfig engine1) = Some nightly /\
  (forall k, (k < 4)%nat -> late_seconds k <> 0) /\
  Start late_seconds engine1 store1 Background idle night_world 4 =
    (Running,
     [Sleep 2000000000; Sleep 1000000000; Sleep 59000000000;
      Sleep 58000000000]).
Proof.
  assert (Hne : forall k, (k < 4)%nat -> late_seconds k <> 0).
  { intros [|[|[|[|k]]]] Hk; try discriminate. lia. }
  split; [reflexivity|]. split; [exact Hne|].
  exact (Start_waits_for_alignment late_seconds engine1 store1 Background
           idle night_world nightly 4 eq_refl Hne).
Defined.

Lemma Start_without_config_panics_witness :
  (NewWithLogger ParseHHMM store1 None).1 = Ok (Some zero_engine, None) /\
  Start late_seconds zero_engine store1 Background idle night_world 1 =
    (Panicked nil_dereference, []).
Proof.
  split; [reflexivity|].
  exact (Start_without_config_panics late_seconds ParseHHMM store1 Background
           idle night_world zero_engine 0 eq_refl).
Defined.

Lemma run_loop_retries_until_success_witness :
  (forall i, (0 <= i <= 0 + 2)%nat -> ctx_done world_patient i = None) /\
  (forall i, (0 <= i < 0 + 2)%nat -> is_Some (task_run world_patient i)) /\
  task_run world_patient (0 + 2) = None /\
  0 <= FailInterval patient /\
  SuccessInterval patient < 0 /\
  run_loop world_patient 3 0 (Some 1%positive) =
    (Returned None,
     [Invoke 0; Sleep 50000000; Invoke 1; Sleep 50000000; Invoke 2]).
Proof.
  assert (Hfail : forall i, (0 <= i < 0 + 2)%nat ->
                            is_Some (task_run world_patient i)).
  { intros [|[|i]] Hi; simpl; eauto. lia. }
  assert (Hdelay : 0 <= FailInterval patient) by (simpl; lia).
  assert (Hneg : SuccessInterval patient < 0) by reflexivity.
  split; [reflexivity|]. split; [exact Hfail|]. split; [reflexivity|].
  split; [exact Hdelay|]. split; [exact Hneg|].
  exact (run_loop_retries_until_success world_patient (Some 1%positive)
           patient patient 2 0 0 (fun _ _ => eq_refl) Hfail eq_refl
           (fun _ _ => eq_refl) Hdelay eq_refl Hneg).
Defined.

Lemma run_loop_adopts_live_config_witness :
  GetConfig (engine_at world_swapped 0) = Some 2%positive /\
  deref (heap_at world_swapped 0) (Some 2%positive) = Some fatal /\
  0 <= SuccessInterval fatal /\
  FailInterval fatal < 0 /\
  run_loop world_swapped 2 0 (Some 1%positive) =
    (Returned (Some "task failed"), [Invoke 0; Sleep 0; Invoke 1]).
Proof.
  assert (Hdelay : 0 <= SuccessInterval fatal) by (simpl; lia).
  split; [reflexivity|]. split; [reflexivity|]. split; [exact Hdelay|].
  split; [reflexivity|].
  exact (run_loop_adopts_live_config world_swapped 0 0 (Some 1%positive)
           (Some 2%positive) fatal fatal "task failed"
           eq_refl eq_refl eq_refl eq_refl Hdelay eq_refl eq_refl eq_refl
           eq_refl).
Defined.

Lemma SetConfig_rejected_half_parsed_witness :
  store1 !! 2%positive = Some broken /\
  (SetConfig ParseHHMM engine1 store1 (Some 2%positive)).1.1 =
    Ok (Some "analysis time period 1 failed: invalid start time") /\
  exists k err,
    "analysis time period 1 failed: invalid start time" =
      analysis_failed k err /\
    (k < length (Periods broken))%nat /\
    (SetConfig ParseHHMM engine1 store1 (Some 2%positive)).2 !! 2%positive =
      Some (mkConfig (Name broken)
              (map (fun v => (ParseHHMM v).2) (take (S k) (Periods broken))
               ++ drop (S k) (Periods broken))
              (SuccessInterval broken) (FailInterval broken)).
Proof.
  split; [reflexivity|]. split; [vm_compute; reflexivity|].
  exact (SetConfig_rejected_half_parsed ParseHHMM engine1 store1 2%positive
           broken "analysis time period 1 failed: invalid start time"
           eq_refl eq_refl).
Defined.

Lemma SetConfig_name_never_empty_witness :
  store1 !! 3%positive = Some daytime /\
  (SetConfig ParseHHMM engine1 store1 (Some 3%positive)).1.1 = Ok None /\
  exists c',
    deref (SetConfig ParseHHMM engine1 store1 (Some 3%positive)).2
          (GetConfig (SetConfig ParseHHMM engine1 store1 (Some 3%positive)).1.2)
      = Some c' /\
    Name c' <> EmptyString /\
    Name c' = (if String.eqb (Name daytime) EmptyString then "regular"
               else Name daytime).
Proof.
  split; [reflexivity|]. split; [reflexivity|].
  exact (SetConfig_name_never_empty ParseHHMM engine1 store1 3%positive
           daytime eq_refl eq_refl).
Defined.

Example New_broken :
  (New ParseHHMM store1 (Some 2%positive)).1 =
    Ok (None, Some "analysis time period 1 failed: invalid start time").
Proof. vm_compute. reflexivity. Qed.

Lemma NewWithLogger_rejects_witness :
  store1 !! 2%positive = Some broken /\
  Periods broken !! 1%nat = Some (window "25:00" "26:00") /\
  (ParseHHMM (window "25:00" "26:00")).1 = Some "invalid start time" /\
  exists k u err',
    (NewWithLogger ParseHHMM store1 (Some 2%positive)).1 =
      Ok (None, Some (analysis_failed k err')) /\
    (k <= 1)%nat /\
    Periods broken !! k = Some u /\ (ParseHHMM u).1 = Some err' /\
    (forall j x, (j < k)%nat -> Periods broken !! j = Some x ->
                 (ParseHHMM x).1 = None).
Proof.
  split; [reflexivity|]. split; [reflexivity|]. split; [reflexivity|].
  exact (NewWithLogger_rejects ParseHHMM store1 2%positive broken 1
           (window "25:00" "26:00") "invalid start time"
           eq_refl eq_refl eq_refl).
Defined.

Lemma poll_shutdown_leaves_no_context_witness :
  (forall i c v,
     deref (poll_heap_at stopping_world i) (poll_cfg_at stopping_world i)
       = Some c ->
     v ∈ Periods c -> 0 <= startHour v) /\
  currentStartHour poll_entry = -1 /\
  launches (trace poll_entry) = [] /\
  poll stopping_world 4 0 poll_entry =
    (Returned None, (poll stopping_world 4 0 poll_entry).2) /\
  forall c v,
    (c, v) ∈ launches (trace (poll stopping_world 4 0 poll_entry).2) ->
    Done (cancelled (poll stopping_world 4 0 poll_entry).2) c = true.
Proof.
  assert (Hparsed : forall i c v,
     deref (poll_heap_at stopping_world i) (poll_cfg_at stopping_world i)
       = Some c ->
     v ∈ Periods c -> 0 <= startHour v).
  { intros i c v Hc Hv. change (Some nightly = Some c) in Hc.
    injection Hc as <-. apply list_elem_of_singleton in Hv. subst v.
    vm_compute. discriminate. }
  assert (Hret : poll stopping_world 4 0 poll_entry =
                 (Returned None, (poll stopping_world 4 0 poll_entry).2)).
  { rewrite poll_stopping_world. reflexivity. }
  split; [exact Hparsed|]. split; [reflexivity|]. split; [reflexivity|].
  split; [exact Hret|].
  exact (poll_shutdown_leaves_no_context stopping_world 4 Hparsed 0%nat
           poll_entry _ eq_refl eq_refl Hret).
Defined.

End FurtherExamples.
